(** * Satellites-Dataset-Download/utils.py

    A shallow embedding of the Earth Engine export helpers of
    [Satellites-Dataset-Download/utils.py] and the properties of the
    parameter assembly, list chunking, task batching and path bookkeeping
    they perform.

    The Python code runs on the client: it assembles Earth Engine
    expression graphs and export task descriptions, slices lists, formats
    names and looks at the local disk.  The expression graphs are modelled
    as the data they are (the types [image], [collection] and [number]); the Python runtime
    (lists with negative indices and slices, [range], [str.replace],
    [os.path.join], exceptions) is modelled first. *)

From Stdlib Require Import ZArith List String Ascii Bool Lia QArith Qround DecimalString.
Import ListNotations.

Local Open Scope Z_scope.
Local Open Scope list_scope.

Set Implicit Arguments.

(* ================================================================== *)
(** * Python runtime *)
(* ================================================================== *)

(** Exceptions the modelled code can raise.  [IndexError i n] is the
    "list index out of range" raised by an access at index [i] of a list
    of length [n]. *)
Inductive pyexn : Type :=
| IndexError (index : Z) (len : nat)
| IntError
| OSError (path : string).

Inductive result (A : Type) : Type :=
| Ok (a : A)
| Raise (e : pyexn).

Arguments Ok {A} a.
Arguments Raise {A} e.

Definition bind {A B : Type} (r : result A) (k : A -> result B) : result B :=
  match r with
  | Ok a => k a
  | Raise e => Raise e
  end.

Notation "x <- c1 ;; c2" := (bind c1 (fun x => c2))
  (at level 61, c1 at next level, right associativity).

Definition py_len {A : Type} (l : list A) : Z := Z.of_nat (List.length l).

(** [l[i]], a negative [i] counting from the end. *)
Definition py_getitem {A : Type} (l : list A) (i : Z) : result A :=
  let j := if i <? 0 then i + py_len l else i in
  if (0 <=? j) && (j <? py_len l) then
    match nth_error l (Z.to_nat j) with
    | Some a => Ok a
    | None => Raise (IndexError i (List.length l))
    end
  else Raise (IndexError i (List.length l)).

(** [l[i] = v]. *)
Definition py_setitem {A : Type} (l : list A) (i : Z) (v : A) : result (list A) :=
  let j := if i <? 0 then i + py_len l else i in
  if (0 <=? j) && (j <? py_len l) then
    Ok (firstn (Z.to_nat j) l ++ v :: skipn (S (Z.to_nat j)) l)
  else Raise (IndexError i (List.length l)).

(** A slice bound is clamped into [0, len]; a negative bound counts from
    the end. *)
Definition slice_bound (len i : Z) : Z :=
  if i <? 0 then Z.max 0 (i + len) else Z.min i len.

(** [l[lo:hi]] with either bound optional. *)
Definition py_slice {A : Type} (l : list A) (lo hi : option Z) : list A :=
  let n := py_len l in
  let a := match lo with Some i => slice_bound n i | None => 0 end in
  let b := match hi with Some i => slice_bound n i | None => n end in
  firstn (Z.to_nat (b - a)) (skipn (Z.to_nat a) l).

(** [range(start, stop, step)] for a positive [step]. *)
Definition py_range (start stop step : Z) : list Z :=
  let n := if start <? stop then (stop - start - 1) / step + 1 else 0 in
  map (fun k => start + Z.of_nat k * step) (seq 0 (Z.to_nat n)).

(** [str(n)] of an integer. *)
Definition py_str_int (n : Z) : string := NilZero.string_of_int (Z.to_int n).

(** [s.replace(c, "")] for a one-character [c]. *)
Fixpoint str_remove (c : ascii) (s : string) : string :=
  match s with
  | EmptyString => EmptyString
  | String a r => if Ascii.eqb a c then str_remove c r else String a (str_remove c r)
  end.

Fixpoint str_mem (c : ascii) (s : string) : bool :=
  match s with
  | EmptyString => false
  | String a r => Ascii.eqb a c || str_mem c r
  end.

Definition starts_with_sep (s : string) : bool :=
  match s with
  | String c _ => Ascii.eqb c "/"%char
  | EmptyString => false
  end.

Fixpoint ends_with_sep (s : string) : bool :=
  match s with
  | EmptyString => false
  | String c EmptyString => Ascii.eqb c "/"%char
  | String _ r => ends_with_sep r
  end.

Definition str_is_empty (s : string) : bool :=
  match s with
  | EmptyString => true
  | String _ _ => false
  end.

(** [os.path.join(a, *p)] of [posixpath]: a component that starts with
    the separator discards everything before it; otherwise it is appended,
    after a separator unless the path so far is empty or ends with one. *)
Definition os_path_join (a : string) (p : list string) : string :=
  fold_left
    (fun path b =>
       if starts_with_sep b then b
       else if str_is_empty path || ends_with_sep path then (path ++ b)%string
       else (path ++ "/" ++ b)%string)
    p a.

(* ================================================================== *)
(** * QA bit pattern *)
(* ================================================================== *)

(** The accumulation loop of [getQABits]:
    [pattern = 0; for i in range(start, end): pattern += 2**i]. *)
Definition qa_pattern (start end_ : Z) : Z :=
  fold_left (fun pattern i => pattern + 2 ^ i) (py_range start end_ 1) 0.

(** The pattern as the documentation of [getQABits] describes it: every
    bit from [start] to [end], both included. *)
Definition qa_pattern_inclusive (start end_ : Z) : Z :=
  fold_left (fun pattern i => pattern + 2 ^ i) (py_range start (end_ + 1) 1) 0.

(* ================================================================== *)
(** * Splitting the band list *)
(* ================================================================== *)

(** The first two statements of [create_export_tasks_for_all_bands]:
    [chunks = [bands[x:x+3] for x in range(0, len(bands), 3)]]
    [chunks[-1] = bands[-3:]]. *)
Definition band_chunks {A : Type} (bands : list A) : result (list (list A)) :=
  let chunks :=
    map (fun x => py_slice bands (Some x) (Some (x + 3)))
        (py_range 0 (py_len bands) 3) in
  py_setitem chunks (-1) (py_slice bands (Some (-3)) None).

(* ================================================================== *)
(** * Small stand-ins for the surroundings *)
(* ================================================================== *)

(** The code is run in the examples below against a disk that is the list
    of the paths on it, integer coordinates printed in decimal, a
    projection that shifts by a fixed offset and a buffer that is the
    square around the point. *)
Definition disk_has (disk : list string) (path : string) : bool :=
  existsb (String.eqb path) disk.

Definition disk_mkdir (disk : list string) (path : string) : result (list string) :=
  Ok (path :: disk).

Definition shift_transform (src dst : string) (p : Z * Z) : Z * Z :=
  if String.eqb src "+proj=longlat +datum=WGS84 +no_defs"
  then (fst p - 1000, snd p - 2000)
  else (fst p + 1000, snd p + 2000).

Definition square_buffer (p : Z * Z) (r : Z) : list (list (Z * Z)) :=
  if 0 <? r then
    [[(fst p - r, snd p - r); (fst p + r, snd p - r); (fst p + r, snd p + r);
      (fst p - r, snd p + r); (fst p - r, snd p - r)]]
  else [].

Definition square_ring : list (Z * Z) :=
  [(-99969, -99970); (100031, -99970); (100031, 100030); (-99969, 100030);
   (-99969, -99970)].

Definition clamp_uint8 (q : Q) : Q := inject_Z (Z.max 0 (Z.min 255 (Qfloor q))).

(* ================================================================== *)
(** * Earth Engine expressions *)
(* ================================================================== *)

(** The Earth Engine client computes nothing itself: every method call on
    an image, a collection or a number returns a node of an expression
    graph that the server evaluates later.  The three inductive types
    below are the nodes the modelled functions build.  A function passed
    to [map] is recorded as its body, applied to the bound image
    [ImgArg]. *)

Section Utils.

(** Python numbers used as coordinates and lengths (floats or ints). *)
Variable num : Type.

Inductive geometry : Type :=
| GeomPolygon (coords : list (num * num)).

Inductive selector : Type :=
| BandName (name : string)
| BandIndex (i : Z).

Inductive reducer : Type :=
| ReducerMin
| ReducerMax.

Inductive image : Type :=
| ImgArg
| ImgConstant (v : Z)
| ImgSelect (sel : list selector) (im : image)
| ImgSelectAs (sel : list selector) (names : list string) (im : image)
| ImgBitwiseAnd (im : image) (v : Z)
| ImgRightShift (im : image) (v : Z)
| ImgEq (im : image) (v : Z)
| ImgUpdateMask (im mask : image)
| ImgClip (im : image) (g : geometry)
| ImgMask (im : image)
| ImgSubtract (im : image) (n : number)
| ImgDivide (im : image) (n : number)
| ImgMultiply (im : image) (v : Z)
| ImgUint8 (im : image)
| CollMin (c : collection)
| CollMax (c : collection)
with collection : Type :=
| ImageCollection (sat : string)
| FilterDate (c : collection) (start_date end_date : string)
| FilterBounds (c : collection) (g : geometry)
| CollMap (body : image) (c : collection)
| CollSelect (sel : list selector) (c : collection)
| CollCombine (c1 c2 : collection) (overwrite : bool)
with number : Type :=
| NumReduceRegion (im : image) (r : reducer) (g : geometry)
    (maxPixels scale : Z) (key : string)
| NumSubtract (a b : number).

(** [getQABits(image, start, end, newName)]. *)
Definition getQABits (im : image) (start end_ : Z) (newName : string) : image :=
  let pattern := qa_pattern start end_ in
  ImgRightShift
    (ImgBitwiseAnd (ImgSelectAs [BandIndex 0] [newName] im) pattern)
    start.

(** [maskCloud(image)]. *)
Definition maskCloud (im : image) : image :=
  let QA := ImgSelect [BandName "StateQA"] im in
  let internalQuality := getQABits QA 8 13 "internal_quality_flag" in
  ImgUpdateMask im (ImgEq internalQuality 0).

(** The literal [10e10] passed as [maxPixels]. *)
Definition max_pixels : Z := 100000000000.

(** The function mapped over the band by [norm_band]:
    [image.subtract(minValue).divide(maxValue.subtract(minValue))
          .multiply(256).uint8()]. *)
Definition norm_body (minValue maxValue : number) : image :=
  ImgUint8
    (ImgMultiply
       (ImgDivide (ImgSubtract ImgArg minValue) (NumSubtract maxValue minValue))
       256).

(** [norm_band(imgcoll, band, polygon)]. *)
Definition norm_band (imgcoll : collection) (band : string) (polygon : geometry)
  : collection :=
  let colIm := CollSelect [BandName band] imgcoll in
  let minImage := CollMin colIm in
  let maxImage := CollMax colIm in
  let maxValue := NumReduceRegion maxImage ReducerMax polygon max_pixels 500 band in
  let minValue := NumReduceRegion minImage ReducerMin polygon max_pixels 500 band in
  let colIm_norm := CollMap (norm_body minValue maxValue) colIm in
  CollCombine imgcoll colIm_norm true.

(** The configuration handed to [ee.batch.Export.video.toDrive]; the task
    it returns has not been started. *)
Record task : Type := Task {
  task_collection : collection;
  task_description : string;
  task_scale : Z;
  task_folder : string;
  task_framesPerSecond : Z;
  task_region : geometry;
  task_crs : string
}.

(** [create_export_vid_bands_task(vid_collection, folder_name, polygon, vid_name)]. *)
Definition create_export_vid_bands_task (vid_collection : collection)
  (folder_name : string) (polygon : geometry) (vid_name : string) : task :=
  {| task_collection := CollMap (ImgUint8 ImgArg) vid_collection;
     task_description := vid_name;
     task_scale := 500;
     task_folder := folder_name;
     task_framesPerSecond := 12;
     task_region := polygon;
     task_crs := "EPSG:4326" |}.

(* ------------------------------------------------------------------ *)
(** ** Export tasks for all bands *)

(** Python objects whose only use is [str(...)] or [int(...)]. *)
Variable pyobj : Type.
Variable py_str : pyobj -> string.
Variable py_int : pyobj -> option Z.

(** The name before the two [replace] calls. *)
Definition raw_video_name (b0 b1 b2 : string) (loc_id : pyobj)
  (start_date end_date : string) : string :=
  ("bands:" ++ b0 ++ "," ++ b1 ++ "," ++ b2 ++ ";loc:" ++ py_str loc_id
     ++ ";s:" ++ start_date ++ ";e:" ++ end_date)%string.

(** The two statements that build [vid_name] from a chunk. *)
Definition video_name (bands_chunk : list string) (loc_id : pyobj)
  (start_date end_date : string) : result string :=
  b0 <- py_getitem bands_chunk 0 ;;
  b1 <- py_getitem bands_chunk 1 ;;
  b2 <- py_getitem bands_chunk 2 ;;
  let vid_name := raw_video_name b0 b1 b2 loc_id start_date end_date in
  let vid_name := str_remove "'" vid_name in
  let vid_name := str_remove "." vid_name in
  Ok vid_name.

(** The path handed to [os.path.exists]. *)
Definition video_path (folder_name vid_name : string) : string :=
  os_path_join "/content/drive/MyDrive/" [folder_name; (vid_name ++ ".mp4")%string].

(** The body of [for bands_chunk in chunks], threading [tasks]. *)
Fixpoint export_loop (path_exists : string -> bool) (imgcoll : collection)
  (folder_name : string) (polygon : geometry) (loc_id : pyobj)
  (start_date end_date : string) (chunks : list (list string))
  (tasks : list task) : result (list task) :=
  match chunks with
  | [] => Ok tasks
  | bands_chunk :: rest =>
      let vid_collection := CollSelect (map BandName bands_chunk) imgcoll in
      vid_name <- video_name bands_chunk loc_id start_date end_date ;;
      if negb (path_exists (video_path folder_name vid_name)) then
        let task := create_export_vid_bands_task vid_collection folder_name
                      polygon vid_name in
        export_loop path_exists imgcoll folder_name polygon loc_id
          start_date end_date rest (tasks ++ [task])
      else
        export_loop path_exists imgcoll folder_name polygon loc_id
          start_date end_date rest tasks
  end.

(** [create_export_tasks_for_all_bands(imgcoll, bands, folder_name, polygon,
    loc_id, lat, lon, start_date, end_date)]; [path_exists] is the disk as
    [os.path.exists] sees it. *)
Definition create_export_tasks_for_all_bands (path_exists : string -> bool)
  (imgcoll : collection) (bands : list string) (folder_name : string)
  (polygon : geometry) (loc_id : pyobj) (lat lon : num)
  (start_date end_date : string) : result (list task) :=
  chunks <- band_chunks bands ;;
  export_loop path_exists imgcoll folder_name polygon loc_id
    start_date end_date chunks [].

(* ------------------------------------------------------------------ *)
(** ** Circular polygon around a centre *)

(** Python number arithmetic and formatting, and the two geometry
    libraries: [pyproj.transform] between two projections given by their
    definition strings, and the buffer of a shapely point, returned as the
    rings of the polygon (exterior first, no ring at all for an empty
    polygon). *)
Variable num_of_Z : Z -> num.
Variable num_mul : num -> num -> num.
Variable num_fmt : num -> string.
Variable pyproj_transform : string -> string -> num * num -> num * num.
Variable shapely_buffer : num * num -> num -> list (list (num * num)).

Definition wgs84 : string := "+proj=longlat +datum=WGS84 +no_defs".

(** The f-string; [point] is the pair [(x, y)]. *)
Definition local_azimuthal_projection (point : num * num) : string :=
  ("+proj=aeqd +R=6371000 +units=m +lat_0=" ++ num_fmt (snd point)
     ++ " +lon_0=" ++ num_fmt (fst point))%string.

(** [create_circular_bb_polygon(center, area=100)]. *)
Definition create_circular_bb_polygon (center : num * num) (area : option num)
  : result geometry :=
  let area := match area with Some a => a | None => num_of_Z 100 end in
  let point := (snd center, fst center) in
  let wgs84_to_aeqd := pyproj_transform wgs84 (local_azimuthal_projection point) in
  let aeqd_to_wgs84 := pyproj_transform (local_azimuthal_projection point) wgs84 in
  let point_transformed := wgs84_to_aeqd point in
  let buffer := shapely_buffer point_transformed (num_mul area (num_of_Z 1000)) in
  let buffer_wgs84 := map (map aeqd_to_wgs84) buffer in
  ring <- py_getitem buffer_wgs84 0 ;;
  Ok (GeomPolygon ring).

(* ------------------------------------------------------------------ *)
(** ** Tasks of a location *)

(** The local disk: what [os.path.exists] answers and what [os.mkdir]
    does. *)
Variable FS : Type.
Variable path_exists : FS -> string -> bool.
Variable os_mkdir : FS -> string -> result FS.

Definition modis : string := "MODIS/061/MOD09A1".

(** [lambda image: image.updateMask(ee.Image.constant(1).clip(polygon).mask())]. *)
Definition polygon_mask_body (polygon : geometry) : image :=
  ImgUpdateMask ImgArg (ImgMask (ImgClip (ImgConstant 1) polygon)).

(** The collection prepared for one period, up to the [uint8] conversion. *)
Definition prepare_collection (sat : string) (bands : list string)
  (polygon : geometry) (start_date end_date : string) : collection :=
  let imgcoll :=
    FilterBounds (FilterDate (ImageCollection sat) start_date end_date) polygon in
  let imgcoll :=
    if String.eqb sat modis then CollMap (maskCloud ImgArg) imgcoll else imgcoll in
  let imgcoll := CollMap (polygon_mask_body polygon) imgcoll in
  let imgcoll := fold_left (fun c band => norm_band c band polygon) bands imgcoll in
  CollMap (ImgUint8 ImgArg) imgcoll.

(** The body of [for i in range(len(start_dates))], threading [tasks]. *)
Fixpoint periods_loop (fs : FS) (sat : string) (bands start_dates end_dates : list string)
  (loc_id : pyobj) (folder_name : string) (polygon : geometry)
  (latitude longitude : num) (indices : list Z) (tasks : list task)
  : result (list task) :=
  match indices with
  | [] => Ok tasks
  | i :: rest =>
      start_date <- py_getitem start_dates i ;;
      end_date <- py_getitem end_dates i ;;
      let imgcoll := prepare_collection sat bands polygon start_date end_date in
      new_tasks <- create_export_tasks_for_all_bands (path_exists fs) imgcoll bands
                     folder_name polygon loc_id latitude longitude
                     start_date end_date ;;
      periods_loop fs sat bands start_dates end_dates loc_id folder_name polygon
        latitude longitude rest (tasks ++ new_tasks)
  end.

(** [get_loc_satellite_tasks(sat, bands, start_dates, end_dates, loc_id,
    folder_name, latitude, longitude, polygon_area=100)]; the result pairs
    the disk after the call with the returned list. *)
Definition get_loc_satellite_tasks (fs : FS) (sat : string)
  (bands start_dates end_dates : list string) (loc_id : pyobj)
  (folder_name : string) (latitude longitude : num) (polygon_area : option num)
  : result (FS * list task) :=
  let polygon_area := match polygon_area with Some a => a | None => num_of_Z 100 end in
  polygon <- create_circular_bb_polygon (latitude, longitude) (Some polygon_area) ;;
  let sat_folder_path := ("/content/drive/MyDrive/" ++ folder_name)%string in
  fs <- (if negb (path_exists fs sat_folder_path)
         then os_mkdir fs sat_folder_path else Ok fs) ;;
  tasks <- periods_loop fs sat bands start_dates end_dates loc_id folder_name
             polygon latitude longitude (py_range 0 (py_len start_dates) 1) [] ;;
  Ok (fs, tasks).

(** [int(x)]. *)
Definition py_int_call (x : pyobj) : result Z :=
  match py_int x with
  | Some z => Ok z
  | None => Raise IntError
  end.

(** [get_loc_tasks(latitude, longitude, year, loc_id, sat, folder_name,
    bands, polygon_area=50)]. *)
Definition get_loc_tasks (fs : FS) (latitude longitude : num) (year loc_id : pyobj)
  (sat folder_name : string) (bands : list string) (polygon_area : option num)
  : result (FS * list task) :=
  let polygon_area := match polygon_area with Some a => a | None => num_of_Z 50 end in
  y <- py_int_call year ;;
  let start_date := (py_str_int y ++ "-04-01")%string in
  y <- py_int_call year ;;
  let end_date := (py_str_int y ++ "-09-30")%string in
  get_loc_satellite_tasks fs sat bands [start_date] [end_date] loc_id folder_name
    latitude longitude (Some polygon_area).

(* ------------------------------------------------------------------ *)
(** ** Meaning of an expression at one pixel *)

(** What the server computes is read off the expression at a fixed pixel
    location.  An image is there a list of named band values and one
    validity bit (its mask; the bands of the images handled here share
    it).  Band values are rationals; QA bands hold integers and the bit
    operations act on the integer part.  The three parameters are outside
    the expression: whether the pixel lies in a geometry, the value the
    server finds for a [reduceRegion] and the [uint8] cast. *)
Record pixel : Type := Pixel {
  px_bands : list (string * Q);
  px_valid : bool
}.

Variable inside : geometry -> bool.
Variable reduce_region : number -> Q.
Variable cast_uint8 : Q -> Q.

Fixpoint lookup_band (name : string) (bs : list (string * Q)) : option Q :=
  match bs with
  | [] => None
  | (n, v) :: r => if String.eqb n name then Some v else lookup_band name r
  end.

Definition select_one (bs : list (string * Q)) (s : selector) : option (string * Q) :=
  match s with
  | BandName n => option_map (fun v => (n, v)) (lookup_band n bs)
  | BandIndex i => if i <? 0 then None else nth_error bs (Z.to_nat i)
  end.

Fixpoint select_bands (bs : list (string * Q)) (sel : list selector)
  : option (list (string * Q)) :=
  match sel with
  | [] => Some []
  | s :: r =>
      match select_one bs s, select_bands bs r with
      | Some b, Some l => Some (b :: l)
      | _, _ => None
      end
  end.

Fixpoint rename_bands (bs : list (string * Q)) (names : list string)
  : option (list (string * Q)) :=
  match bs, names with
  | [], [] => Some []
  | (_, v) :: r, n :: ns => option_map (cons (n, v)) (rename_bands r ns)
  | _, _ => None
  end.

Definition map_values (f : Q -> Q) (p : pixel) : pixel :=
  {| px_bands := map (fun b => (fst b, f (snd b))) (px_bands p);
     px_valid := px_valid p |}.

Definition with_bands (bs : list (string * Q)) (p : pixel) : pixel :=
  {| px_bands := bs; px_valid := px_valid p |}.

Definition Qbool (b : bool) : Q := if b then 1%Q else 0%Q.

Fixpoint eval_number (n : number) : Q :=
  match n with
  | NumReduceRegion _ _ _ _ _ _ => reduce_region n
  | NumSubtract a b => (eval_number a - eval_number b)%Q
  end.

(** [divide] returns 0 where the divisor is 0, as [Qdiv] does. *)
Fixpoint eval_image (arg : pixel) (e : image) : option pixel :=
  match e with
  | ImgArg => Some arg
  | ImgConstant v =>
      Some {| px_bands := [("constant"%string, inject_Z v)]; px_valid := true |}
  | ImgSelect sel im =>
      match eval_image arg im with
      | Some p => option_map (fun bs => with_bands bs p) (select_bands (px_bands p) sel)
      | None => None
      end
  | ImgSelectAs sel names im =>
      match eval_image arg im with
      | Some p =>
          match select_bands (px_bands p) sel with
          | Some bs => option_map (fun bs' => with_bands bs' p) (rename_bands bs names)
          | None => None
          end
      | None => None
      end
  | ImgBitwiseAnd im v =>
      option_map (map_values (fun q => inject_Z (Z.land (Qfloor q) v)))
        (eval_image arg im)
  | ImgRightShift im v =>
      option_map (map_values (fun q => inject_Z (Z.shiftr (Qfloor q) v)))
        (eval_image arg im)
  | ImgEq im v =>
      option_map (map_values (fun q => Qbool (Qeq_bool q (inject_Z v))))
        (eval_image arg im)
  | ImgUpdateMask im m =>
      match eval_image arg im, eval_image arg m with
      | Some p, Some pm =>
          match px_bands pm with
          | [(_, v)] =>
              Some {| px_bands := px_bands p;
                      px_valid := px_valid p && px_valid pm && negb (Qeq_bool v 0) |}
          | _ => None
          end
      | _, _ => None
      end
  | ImgClip im g =>
      option_map (fun p => {| px_bands := px_bands p;
                              px_valid := px_valid p && inside g |})
        (eval_image arg im)
  | ImgMask im =>
      option_map (fun p => {| px_bands := map (fun b => (fst b, Qbool (px_valid p)))
                                              (px_bands p);
                              px_valid := true |})
        (eval_image arg im)
  | ImgSubtract im n =>
      option_map (map_values (fun q => (q - eval_number n)%Q)) (eval_image arg im)
  | ImgDivide im n =>
      option_map (map_values (fun q => (q / eval_number n)%Q)) (eval_image arg im)
  | ImgMultiply im v =>
      option_map (map_values (fun q => (q * inject_Z v)%Q)) (eval_image arg im)
  | ImgUint8 im => option_map (map_values cast_uint8) (eval_image arg im)
  | CollMin _ => None
  | CollMax _ => None
  end.

(** [combine(secondary, overwrite=True)] on two images with the same id:
    a band of the secondary image replaces the band of that name, or is
    added when there is none. *)
Fixpoint set_band (name : string) (v : Q) (bs : list (string * Q)) : list (string * Q) :=
  match bs with
  | [] => [(name, v)]
  | (n, w) :: r => if String.eqb n name then (n, v) :: r else (n, w) :: set_band name v r
  end.

Definition overwrite_bands (primary secondary : list (string * Q)) : list (string * Q) :=
  fold_left (fun acc b => set_band (fst b) (snd b) acc) secondary primary.

Fixpoint option_all {A : Type} (l : list (option A)) : option (list A) :=
  match l with
  | [] => Some []
  | Some a :: r => option_map (cons a) (option_all r)
  | None :: _ => None
  end.

Fixpoint combine_overwrite (l1 l2 : list pixel) : option (list pixel) :=
  match l1, l2 with
  | [], [] => Some []
  | p :: r1, q :: r2 =>
      option_map (cons (with_bands (overwrite_bands (px_bands p) (px_bands q)) p))
        (combine_overwrite r1 r2)
  | _, _ => None
  end.

(** A collection at the pixel: the list of its images there.  [source]
    gives the images of a catalogue collection after its filters; [map],
    [select] and [combine] keep the images and their order, so [combine]
    pairs the images position by position. *)
Variable source : collection -> list pixel.

Fixpoint eval_collection (c : collection) : option (list pixel) :=
  match c with
  | ImageCollection _ => Some (source c)
  | FilterDate _ _ _ => Some (source c)
  | FilterBounds _ _ => Some (source c)
  | CollMap body c' =>
      match eval_collection c' with
      | Some l => option_all (map (fun p => eval_image p body) l)
      | None => None
      end
  | CollSelect sel c' =>
      match eval_collection c' with
      | Some l =>
          option_all (map (fun p => option_map (fun bs => with_bands bs p)
                                      (select_bands (px_bands p) sel)) l)
      | None => None
      end
  | CollCombine c1 c2 overwrite =>
      match eval_collection c1, eval_collection c2 with
      | Some l1, Some l2 => if overwrite then combine_overwrite l1 l2 else None
      | _, _ => None
      end
  end.

(* ------------------------------------------------------------------ *)
(** ** Starting tasks in batches *)

(** Task objects are told apart by identity, so the same object can sit
    at several places of a list.  Starting a task and sleeping are the
    effects of the code; they are recorded in a log, in the order they
    happen. *)
Variable task_obj : Type.

Inductive effect : Type :=
| TaskStart (t : task_obj)
| Sleep (milliseconds : Z).

(** [start_task(task)]. *)
Definition start_task (t : task_obj) (log : list effect) : task_obj * list effect :=
  (t, log ++ [TaskStart t; Sleep 500]).

(** [for task in to_be_started_tasks: task = start_task(task)]. *)
Fixpoint start_loop (ts : list task_obj) (log : list effect) : list effect :=
  match ts with
  | [] => log
  | t :: rest => start_loop rest (snd (start_task t log))
  end.

(** [start_multiple_tasks(tasks, n)]. *)
Definition start_multiple_tasks (tasks : list task_obj) (n : Z) (log : list effect)
  : (list task_obj * list task_obj) * list effect :=
  let to_be_started_tasks := py_slice tasks None (Some (Z.min n (py_len tasks))) in
  let remaining_tasks := py_slice tasks (Some (Z.min n (py_len tasks))) None in
  let log := start_loop to_be_started_tasks log in
  ((to_be_started_tasks, remaining_tasks), log).

(** The tasks started along a log, in order. *)
Fixpoint started (log : list effect) : list task_obj :=
  match log with
  | [] => []
  | TaskStart t :: r => t :: started r
  | Sleep _ :: r => started r
  end.

(* ------------------------------------------------------------------ *)
(** ** Reference descriptions *)

(** Closed forms the properties below are stated with: what the loops of
    the code amount to, written without loops, indices or exceptions. *)

(** The chunks as the comment of the code describes them: the leading
    groups of three consecutive bands, then the last three bands. *)
Definition leading_chunks {A : Type} (bands : list A) : list (list A) :=
  map (fun k => firstn 3 (skipn (3 * k) bands)) (seq 0 ((List.length bands - 1) / 3)).

Definition chunks_of {A : Type} (bands : list A) : list (list A) :=
  leading_chunks bands ++ [skipn (List.length bands - 3) bands].

(** The name and the task the loop body computes for a chunk of three
    bands, and the tasks of a whole chunk list. *)
Definition chunk_video_name (loc_id : pyobj) (start_date end_date : string)
  (c : list string) : string :=
  str_remove "." (str_remove "'"
    (raw_video_name (nth 0 c ""%string) (nth 1 c ""%string) (nth 2 c ""%string)
       loc_id start_date end_date)).

Definition chunk_task (imgcoll : collection) (folder_name : string)
  (polygon : geometry) (loc_id : pyobj) (start_date end_date : string)
  (c : list string) : task :=
  create_export_vid_bands_task (CollSelect (map BandName c) imgcoll) folder_name
    polygon (chunk_video_name loc_id start_date end_date c).

Definition chunk_missing (exists_ : string -> bool) (folder_name : string)
  (loc_id : pyobj) (start_date end_date : string) (c : list string) : bool :=
  negb (exists_ (video_path folder_name (chunk_video_name loc_id start_date end_date c))).

Definition tasks_of_chunks (exists_ : string -> bool) (imgcoll : collection)
  (folder_name : string) (polygon : geometry) (loc_id : pyobj)
  (start_date end_date : string) (chunks : list (list string)) : list task :=
  map (chunk_task imgcoll folder_name polygon loc_id start_date end_date)
    (filter (chunk_missing exists_ folder_name loc_id start_date end_date) chunks).

(** The path as the words "/content/drive/MyDrive/<folder_name>/<vid_name>.mp4"
    spell it. *)
Definition spelled_video_path (folder_name vid_name : string) : string :=
  ("/content/drive/MyDrive/" ++ folder_name ++ "/" ++ vid_name ++ ".mp4")%string.

(** The tasks of one period as the loop body produces them. *)
Definition period_tasks (fs : FS) (sat : string) (bands : list string)
  (loc_id : pyobj) (folder_name : string) (polygon : geometry)
  (period : string * string) : list task :=
  tasks_of_chunks (path_exists fs)
    (prepare_collection sat bands polygon (fst period) (snd period))
    folder_name polygon loc_id (fst period) (snd period) (chunks_of bands).

(** The value [norm_band] gives a pixel before the [uint8] cast. *)
Definition norm_scaled (x vmin vmax : Q) : Q := ((x - vmin) / (vmax - vmin) * 256)%Q.

(** The band value of an image at the pixel, and the image [norm_band]
    makes of it. *)
Definition band_value (band : string) (p : pixel) : Q :=
  match lookup_band band (px_bands p) with
  | Some x => x
  | None => 0%Q
  end.

Definition normalize_pixel (band : string) (vmin vmax : Q) (p : pixel) : pixel :=
  with_bands
    (set_band band (cast_uint8 (norm_scaled (band_value band p) vmin vmax)) (px_bands p))
    p.

(* ------------------------------------------------------------------ *)
(** ** Further reference descriptions and sample images *)

(** The time a log spends sleeping, in milliseconds. *)
Fixpoint total_sleep (log : list effect) : Z :=
  match log with
  | [] => 0
  | TaskStart _ :: r => total_sleep r
  | Sleep ms :: r => ms + total_sleep r
  end.

(** A name component after the two [replace] calls. *)
Definition clean_name (s : string) : string := str_remove "." (str_remove "'" s).

(** The QA bits [maskCloud] looks at, for an image at the pixel. *)
Definition cloud_bits (p : pixel) : Z :=
  Z.shiftr (Z.land (Qfloor (band_value "StateQA" p)) (qa_pattern 8 13)) 8.

(** What the loop [for band in bands: imgcoll = norm_band(...)] leaves of
    an image [p] in the image [p'] at the same place. *)
Definition normalised_from (bands : list string) (p p' : pixel) : Prop :=
  px_valid p' = px_valid p
  /\ (forall other, ~ In other bands ->
        lookup_band other (px_bands p') = lookup_band other (px_bands p))
  /\ (forall b, In b bands ->
        exists q, lookup_band b (px_bands p') = Some (cast_uint8 q))
  /\ (forall b, lookup_band b (px_bands p) <> None <->
                lookup_band b (px_bands p') <> None).

Definition square_ring_50 : list (Z * Z) :=
  [(-49969, -49970); (50031, -49970); (50031, 50030); (-49969, 50030);
   (-49969, -49970)].

Definition two_images : list pixel :=
  [ {| px_bands := [("B1"%string, 10%Q); ("B2"%string, 7%Q); ("StateQA"%string, inject_Z 0)];
       px_valid := true |};
    {| px_bands := [("B1"%string, 30%Q); ("B2"%string, 9%Q); ("StateQA"%string, inject_Z 1024)];
       px_valid := true |} ].

(* ================================================================== *)
(** * Properties of the Python runtime model *)
(* ================================================================== *)

(** Side conditions that come back in every proof about indices: a
    comparison on [Z] that arithmetic settles, and a band list that cannot
    be empty because it has three elements. *)
Ltac ltb_false a b :=
  replace (a <? b) with false by (symmetry; apply Z.ltb_ge; lia).

Ltac ltb_true a b :=
  replace (a <? b) with true by (symmetry; apply Z.ltb_lt; lia).

Ltac in_range_true i n :=
  replace ((0 <=? i) && (i <? n)) with true
    by (symmetry; apply andb_true_iff; split; [apply Z.leb_le | apply Z.ltb_lt]; lia).

Ltac not_nil Hlen := intros ->; simpl in Hlen; lia.

Lemma py_range_step1 (a b : Z) :
  py_range a b 1 = map (fun k => a + Z.of_nat k) (seq 0 (Z.to_nat (b - a))).
Proof.
  unfold py_range.
  destruct (Z.ltb_spec a b) as [Hlt | Hge].
  - rewrite Z.div_1_r.
    replace (b - a - 1 + 1) with (b - a) by lia.
    apply map_ext; intros k; lia.
  - replace (Z.to_nat (b - a)) with 0%nat by lia. reflexivity.
Qed.

Lemma fold_pow2_shift (s : Z) (n : nat) (acc : Z) :
  0 <= s ->
  fold_left (fun pattern i => pattern + 2 ^ i)
    (map (fun k => s + Z.of_nat k) (seq 0 n)) acc
  = acc + (2 ^ (s + Z.of_nat n) - 2 ^ s).
Proof.
  intros Hs. induction n as [| n IH].
  - simpl. rewrite Z.add_0_r. lia.
  - rewrite seq_S, map_app, fold_left_app, IH.
    cbn [map fold_left Nat.add].
    replace (s + Z.of_nat (S n)) with (Z.succ (s + Z.of_nat n)) by lia.
    rewrite Z.pow_succ_r by lia. lia.
Qed.

Lemma qa_pattern_closed_form (start end_ : Z) :
  0 <= start <= end_ -> qa_pattern start end_ = 2 ^ end_ - 2 ^ start.
Proof.
  intros H. unfold qa_pattern.
  rewrite py_range_step1, fold_pow2_shift by lia.
  replace (start + Z.of_nat (Z.to_nat (end_ - start))) with end_ by lia.
  lia.
Qed.

Lemma pow2_diff_shiftl (start end_ : Z) :
  0 <= start <= end_ ->
  2 ^ end_ - 2 ^ start = Z.shiftl (Z.ones (end_ - start)) start.
Proof.
  intros H. rewrite Z.shiftl_mul_pow2, Z.ones_equiv by lia.
  replace end_ with ((end_ - start) + start) at 1 by lia.
  rewrite Z.pow_add_r by lia. lia.
Qed.

Lemma pow2_diff_testbit (start end_ i : Z) :
  0 <= start <= end_ -> 0 <= i ->
  Z.testbit (2 ^ end_ - 2 ^ start) i = (start <=? i) && (i <? end_).
Proof.
  intros H Hi. rewrite pow2_diff_shiftl by lia.
  rewrite Z.shiftl_spec by lia.
  destruct (Z.leb_spec start i) as [Hle | Hlt]; simpl.
  - destruct (Z.ltb_spec i end_) as [Hlt | Hge].
    + apply Z.ones_spec_low. lia.
    + apply Z.ones_spec_high. lia.
  - apply Z.testbit_neg_r. lia.
Qed.

Lemma py_slice_prefix (A : Type) (l : list A) (k : Z) :
  0 <= k -> py_slice l None (Some k) = firstn (Z.to_nat k) l.
Proof.
  intros Hk. unfold py_slice, slice_bound, py_len.
  ltb_false k 0.
  rewrite Z.sub_0_r. cbn [Z.to_nat skipn].
  destruct (Z.le_ge_cases k (Z.of_nat (List.length l))) as [Hle | Hge].
  - rewrite Z.min_l by lia. reflexivity.
  - rewrite Z.min_r, Nat2Z.id by lia.
    rewrite !firstn_all2 by lia. reflexivity.
Qed.

Lemma py_slice_suffix (A : Type) (l : list A) (k : Z) :
  0 <= k -> py_slice l (Some k) None = skipn (Z.to_nat k) l.
Proof.
  intros Hk. unfold py_slice, slice_bound, py_len.
  ltb_false k 0.
  destruct (Z.le_ge_cases k (Z.of_nat (List.length l))) as [Hle | Hge].
  - rewrite Z.min_l by lia. apply firstn_all2. rewrite length_skipn. lia.
  - rewrite Z.min_r, Nat2Z.id by lia.
    rewrite !skipn_all2 by lia. apply firstn_nil.
Qed.

Lemma py_slice_window (A : Type) (l : list A) (a w : nat) :
  py_slice l (Some (Z.of_nat a)) (Some (Z.of_nat a + Z.of_nat w))
  = firstn w (skipn a l).
Proof.
  unfold py_slice, slice_bound, py_len.
  ltb_false (Z.of_nat a) 0.
  ltb_false (Z.of_nat a + Z.of_nat w) 0.
  destruct (Nat.le_gt_cases (List.length l) a) as [Hout | Hin].
  - rewrite (Z.min_r (Z.of_nat a)) by lia. rewrite Nat2Z.id.
    rewrite !skipn_all2 by lia. rewrite !firstn_nil. reflexivity.
  - rewrite (Z.min_l (Z.of_nat a)), Nat2Z.id by lia.
    destruct (Nat.le_gt_cases (a + w) (List.length l)) as [Hfit | Hcut].
    + rewrite Z.min_l by lia. f_equal. lia.
    + rewrite Z.min_r by lia.
      rewrite !firstn_all2; [reflexivity | |]; rewrite length_skipn; lia.
Qed.

Lemma py_slice_last3 (A : Type) (l : list A) :
  py_slice l (Some (-3)) None = skipn (List.length l - 3) l.
Proof.
  unfold py_slice, slice_bound, py_len. cbn [Z.ltb Z.compare].
  replace (Z.to_nat (Z.max 0 (-3 + Z.of_nat (List.length l))))
    with (List.length l - 3)%nat by lia.
  apply firstn_all2. rewrite length_skipn. lia.
Qed.

Lemma py_range_step3 (n : nat) :
  py_range 0 (Z.of_nat n) 3
  = map (fun k => Z.of_nat (3 * k)) (seq 0 ((n + 2) / 3)).
Proof.
  unfold py_range.
  destruct n as [| n].
  - reflexivity.
  - ltb_true 0 (Z.of_nat (S n)).
    replace (Z.to_nat ((Z.of_nat (S n) - 0 - 1) / 3 + 1)) with ((S n + 2) / 3)%nat.
    + apply map_ext. intros k. lia.
    + replace (S n + 2)%nat with (n + 1 * 3)%nat by lia.
      rewrite Nat.div_add by lia.
      replace (Z.of_nat (S n) - 0 - 1) with (Z.of_nat n) by lia.
      rewrite Z2Nat.inj_add; [| apply Z.div_pos; lia | lia].
      change 3 with (Z.of_nat 3). rewrite <- Nat2Z.inj_div, Nat2Z.id. reflexivity.
Qed.

Lemma band_chunks_nonempty (A : Type) (bands : list A) :
  bands <> [] -> band_chunks bands = Ok (chunks_of bands).
Proof.
  intros Hne. unfold band_chunks, chunks_of, leading_chunks.
  assert (Hlen : (1 <= List.length bands)%nat)
    by (destruct bands; [congruence | simpl; lia]).
  unfold py_len at 1. rewrite py_range_step3, map_map, py_slice_last3.
  set (m := ((List.length bands - 1) / 3)%nat).
  replace ((List.length bands + 2) / 3)%nat with (S m).
  2:{ unfold m. replace (List.length bands + 2)%nat
        with ((List.length bands - 1) + 1 * 3)%nat by lia.
      rewrite Nat.div_add by lia. lia. }
  rewrite (map_ext _ (fun k => firstn 3 (skipn (3 * k) bands))).
  2:{ intros k. apply (py_slice_window bands (3 * k) 3). }
  rewrite seq_S, map_app. cbn [map Nat.add].
  set (f := fun k => firstn 3 (skipn (3 * k) bands)).
  unfold py_setitem, py_len.
  rewrite length_app, length_map, length_seq. cbn [List.length Z.ltb Z.compare].
  replace (-1 + Z.of_nat (m + 1)) with (Z.of_nat m) by lia.
  in_range_true (Z.of_nat m) (Z.of_nat (m + 1)).
  rewrite Nat2Z.id.
  assert (Hm : List.length (map f (seq 0 m)) = m) by (rewrite length_map, length_seq; reflexivity).
  rewrite firstn_app, Hm, Nat.sub_diag, firstn_all2 by lia.
  rewrite (skipn_all2 (n := S m)) by (rewrite length_app, Hm; simpl; lia).
  cbn [firstn]. rewrite app_nil_r. reflexivity.
Qed.

Lemma leading_chunks_length (A : Type) (bands c : list A) :
  In c (leading_chunks bands) -> List.length c = 3%nat.
Proof.
  unfold leading_chunks. intros Hin.
  apply in_map_iff in Hin. destruct Hin as (k & <- & Hk).
  apply in_seq in Hk.
  rewrite length_firstn, length_skipn.
  assert (3 * ((List.length bands - 1) / 3) <= List.length bands - 1)%nat
    by (apply Nat.Div0.mul_div_le).
  lia.
Qed.

Lemma chunks_of_length (A : Type) (bands c : list A) :
  (3 <= List.length bands)%nat -> In c (chunks_of bands) -> List.length c = 3%nat.
Proof.
  intros Hlen Hin. unfold chunks_of in Hin.
  apply in_app_or in Hin. destruct Hin as [Hin | [<- | []]].
  - eapply leading_chunks_length; eassumption.
  - rewrite length_skipn. lia.
Qed.

Lemma chunks_of_cover (A : Type) (bands : list A) (b : A) :
  (3 <= List.length bands)%nat -> In b bands ->
  exists c, In c (chunks_of bands) /\ In b c.
Proof.
  intros Hlen Hin.
  apply In_nth_error in Hin. destruct Hin as (i & Hi).
  assert (Hlt : (i < List.length bands)%nat)
    by (apply nth_error_Some; congruence).
  set (m := ((List.length bands - 1) / 3)%nat).
  destruct (Nat.lt_ge_cases i (3 * m)) as [Hlead | Hlast].
  - exists (firstn 3 (skipn (3 * (i / 3)) bands)). split.
    + unfold chunks_of, leading_chunks. apply in_or_app. left.
      apply in_map_iff. exists (i / 3)%nat. split; [reflexivity |].
      apply in_seq. split; [lia |]. fold m.
      rewrite Nat.add_0_l. apply Nat.Div0.div_lt_upper_bound. lia.
    + apply (nth_error_In _ (i mod 3)).
      rewrite nth_error_firstn.
      replace (i mod 3 <? 3)%nat with true
        by (symmetry; apply Nat.ltb_lt; apply Nat.mod_upper_bound; lia).
      rewrite nth_error_skipn, <- Nat.div_mod_eq. exact Hi.
  - exists (skipn (List.length bands - 3) bands). split.
    + unfold chunks_of. apply in_or_app. right. left. reflexivity.
    + apply (nth_error_In _ (i - (List.length bands - 3))).
      rewrite nth_error_skipn.
      assert (List.length bands - 1 < 3 * m + 3)%nat.
      { unfold m. pose proof (Nat.div_mod_eq (List.length bands - 1) 3).
        pose proof (Nat.mod_upper_bound (List.length bands - 1) 3). lia. }
      replace (List.length bands - 3 + (i - (List.length bands - 3)))%nat with i by lia.
      exact Hi.
Qed.

Lemma firstn_plus (A : Type) (l : list A) (a b : nat) :
  firstn (a + b) l = firstn a l ++ firstn b (skipn a l).
Proof.
  revert l. induction a as [| a IH]; intros l; [reflexivity |].
  destruct l as [| x l]; [cbn [skipn]; rewrite !firstn_nil; reflexivity |].
  cbn [Nat.add firstn skipn app]. rewrite IH. reflexivity.
Qed.

Lemma concat_leading_chunks (A : Type) (bands : list A) (m : nat) :
  List.concat (map (fun k => firstn 3 (skipn (3 * k) bands)) (seq 0 m))
  = firstn (3 * m) bands.
Proof.
  induction m as [| m IH]; [reflexivity |].
  rewrite seq_S, map_app, concat_app, IH. cbn [map List.concat Nat.add].
  rewrite app_nil_r, <- firstn_plus. f_equal. lia.
Qed.

Lemma chunks_of_count (A : Type) (bands : list A) :
  (1 <= List.length bands)%nat ->
  List.length (chunks_of bands) = ((List.length bands + 2) / 3)%nat.
Proof.
  intros Hlen. unfold chunks_of, leading_chunks.
  rewrite length_app, length_map, length_seq. cbn [List.length].
  replace (List.length bands + 2)%nat with ((List.length bands - 1) + 1 * 3)%nat by lia.
  rewrite Nat.div_add by lia. lia.
Qed.

Lemma chunks_of_partition (A : Type) (bands : list A) :
  (3 <= List.length bands)%nat ->
  (List.length bands mod 3 = 0)%nat ->
  List.concat (chunks_of bands) = bands.
Proof.
  intros Hlen Hmod. unfold chunks_of, leading_chunks.
  rewrite concat_app, concat_leading_chunks. cbn [List.concat]. rewrite app_nil_r.
  pose proof (Nat.div_mod_eq (List.length bands) 3) as Hdiv.
  rewrite Hmod, Nat.add_0_r in Hdiv.
  replace (3 * ((List.length bands - 1) / 3))%nat with (List.length bands - 3)%nat.
  - apply firstn_skipn.
  - remember (List.length bands / 3)%nat as q eqn:Hq.
    assert (Hq1 : (1 <= q)%nat) by lia.
    replace (List.length bands - 1)%nat with (2 + (q - 1) * 3)%nat by lia.
    rewrite Nat.div_add by lia. change (2 / 3)%nat with 0%nat. lia.
Qed.

Lemma str_remove_absent (c : ascii) (s : string) :
  str_mem c (str_remove c s) = false.
Proof.
  induction s as [| a r IH]; simpl; [reflexivity |].
  destruct (Ascii.eqb a c) eqn:E; simpl; [exact IH |].
  rewrite E. exact IH.
Qed.

Lemma str_remove_keeps_absent (c d : ascii) (s : string) :
  str_mem d s = false -> str_mem d (str_remove c s) = false.
Proof.
  induction s as [| a r IH]; simpl; [reflexivity |].
  intros H. apply orb_false_iff in H. destruct H as [Ha Hr].
  destruct (Ascii.eqb a c); simpl; [auto |].
  rewrite Ha. auto.
Qed.

Lemma video_name_of_three (loc_id : pyobj) (start_date end_date : string)
  (c : list string) :
  List.length c = 3%nat ->
  video_name c loc_id start_date end_date
  = Ok (chunk_video_name loc_id start_date end_date c).
Proof.
  intros Hlen.
  destruct c as [| b0 [| b1 [| b2 [| b3 r]]]]; try discriminate Hlen.
  reflexivity.
Qed.

Lemma export_loop_of_three (exists_ : string -> bool) (imgcoll : collection)
  (folder_name : string) (polygon : geometry) (loc_id : pyobj)
  (start_date end_date : string) (chunks : list (list string)) :
  (forall c, In c chunks -> List.length c = 3%nat) ->
  forall tasks,
    export_loop exists_ imgcoll folder_name polygon loc_id start_date end_date
      chunks tasks
    = Ok (tasks ++ tasks_of_chunks exists_ imgcoll folder_name polygon loc_id
                     start_date end_date chunks).
Proof.
  unfold tasks_of_chunks.
  induction chunks as [| c rest IH]; intros Hall tasks.
  - simpl. rewrite app_nil_r. reflexivity.
  - cbn [export_loop]. rewrite video_name_of_three by (apply Hall; left; reflexivity).
    cbn [bind filter]. unfold chunk_missing at 1.
    destruct (exists_ _); cbn [negb].
    + apply IH. intros c' Hc'. apply Hall. right. exact Hc'.
    + rewrite IH by (intros c' Hc'; apply Hall; right; exact Hc').
      rewrite <- app_assoc. reflexivity.
Qed.

Lemma ends_with_sep_app (a b : string) :
  b <> EmptyString -> ends_with_sep (a ++ b) = ends_with_sep b.
Proof.
  intros Hb. induction a as [| c a IH]; [reflexivity |].
  cbn [String.append ends_with_sep]. rewrite IH.
  destruct (a ++ b)%string eqn:E; [| reflexivity].
  destruct a; [simpl in E; congruence | discriminate E].
Qed.

Lemma chunk_video_name_head (loc_id : pyobj) (start_date end_date : string)
  (c : list string) :
  exists rest, chunk_video_name loc_id start_date end_date c = String "b" rest.
Proof.
  unfold chunk_video_name, raw_video_name. cbn [String.append str_remove].
  eexists. reflexivity.
Qed.

Lemma str_app_assoc (a b c : string) :
  ((a ++ b) ++ c)%string = (a ++ (b ++ c))%string.
Proof.
  induction a as [| x a IH]; [reflexivity |].
  cbn [String.append]. rewrite IH. reflexivity.
Qed.

Lemma video_path_plain (folder_name : string) (loc_id : pyobj)
  (start_date end_date : string) (c : list string) :
  folder_name <> EmptyString ->
  starts_with_sep folder_name = false ->
  ends_with_sep folder_name = false ->
  video_path folder_name (chunk_video_name loc_id start_date end_date c)
  = spelled_video_path folder_name (chunk_video_name loc_id start_date end_date c).
Proof.
  intros Hne Hstart Hend.
  destruct (chunk_video_name_head loc_id start_date end_date c) as (rest & ->).
  unfold video_path, spelled_video_path, os_path_join. cbn [fold_left].
  rewrite Hstart.
  replace (str_is_empty "/content/drive/MyDrive/" || ends_with_sep "/content/drive/MyDrive/")
    with true by reflexivity.
  replace (starts_with_sep (String "b" rest ++ ".mp4")) with false by reflexivity.
  rewrite ends_with_sep_app, Hend by exact Hne.
  replace (str_is_empty ("/content/drive/MyDrive/" ++ folder_name)) with false
    by reflexivity.
  cbn [orb]. apply str_app_assoc.
Qed.

Lemma str_length_app (a b : string) :
  String.length (a ++ b) = (String.length a + String.length b)%nat.
Proof.
  induction a as [| x a IH]; [reflexivity |].
  cbn [String.append String.length Nat.add]. rewrite IH. reflexivity.
Qed.

Lemma video_path_absolute (folder_name vid_name : string) :
  starts_with_sep folder_name = true ->
  starts_with_sep (vid_name ++ ".mp4") = false ->
  video_path folder_name vid_name
  = (if ends_with_sep folder_name
     then folder_name ++ vid_name ++ ".mp4"
     else folder_name ++ "/" ++ vid_name ++ ".mp4")%string.
Proof.
  intros Habs Hfile.
  unfold video_path, os_path_join. cbn [fold_left].
  rewrite Habs, Hfile.
  destruct folder_name as [| x r]; [discriminate Habs |].
  cbn [str_is_empty orb]. reflexivity.
Qed.

Lemma create_export_tasks_of_three (exists_ : string -> bool) (imgcoll : collection)
  (bands : list string) (folder_name : string) (polygon : geometry)
  (loc_id : pyobj) (lat lon : num) (start_date end_date : string) :
  (3 <= List.length bands)%nat ->
  create_export_tasks_for_all_bands exists_ imgcoll bands folder_name polygon
    loc_id lat lon start_date end_date
  = Ok (tasks_of_chunks exists_ imgcoll folder_name polygon loc_id
          start_date end_date (chunks_of bands)).
Proof.
  intros Hlen. unfold create_export_tasks_for_all_bands.
  rewrite band_chunks_nonempty by not_nil Hlen.
  cbn [bind]. rewrite export_loop_of_three.
  - reflexivity.
  - intros c Hc. apply (chunks_of_length bands); assumption.
Qed.

Lemma start_loop_log (ts : list task_obj) (log : list effect) :
  start_loop ts log = log ++ flat_map (fun t => [TaskStart t; Sleep 500]) ts.
Proof.
  revert log. induction ts as [| t rest IH]; intros log.
  - simpl. rewrite app_nil_r. reflexivity.
  - cbn [start_loop start_task snd flat_map]. rewrite IH, <- app_assoc. reflexivity.
Qed.

Lemma started_starts (ts : list task_obj) :
  started (flat_map (fun t => [TaskStart t; Sleep 500]) ts) = ts.
Proof.
  induction ts as [| t rest IH]; [reflexivity |].
  cbn [flat_map app started]. rewrite IH. reflexivity.
Qed.

Lemma NoDup_app_disjoint (A : Type) (l1 l2 : list A) (x : A) :
  NoDup (l1 ++ l2) -> In x l2 -> ~ In x l1.
Proof.
  induction l1 as [| a l1 IH]; intros Hnd Hx2 Hx1; [exact Hx1 |].
  inversion Hnd as [| ? ? Hnotin Hnd']; subst.
  destruct Hx1 as [-> | Hx1].
  - apply Hnotin. apply in_or_app. right. exact Hx2.
  - exact (IH Hnd' Hx2 Hx1).
Qed.

Lemma py_getitem_nth (A : Type) (l : list A) (i : nat) (x : A) :
  nth_error l i = Some x -> py_getitem l (Z.of_nat i) = Ok x.
Proof.
  intros Hnth.
  assert (Hlt : (i < List.length l)%nat) by (apply nth_error_Some; congruence).
  unfold py_getitem, py_len.
  ltb_false (Z.of_nat i) 0.
  in_range_true (Z.of_nat i) (Z.of_nat (List.length l)).
  rewrite Nat2Z.id, Hnth. reflexivity.
Qed.

Lemma skipn_cons_nth (A : Type) (l : list A) (i : nat) (x : A) :
  nth_error l i = Some x -> skipn i l = x :: skipn (S i) l.
Proof.
  revert l. induction i as [| i IH]; intros [| a l] H; try discriminate H.
  - injection H as ->. reflexivity.
  - cbn [nth_error] in H. change (skipn i l = x :: skipn (S i) l). apply IH. exact H.
Qed.

Lemma nth_error_combine (A B : Type) (l1 : list A) (l2 : list B) (i : nat) x y :
  nth_error l1 i = Some x -> nth_error l2 i = Some y ->
  nth_error (combine l1 l2) i = Some (x, y).
Proof.
  revert l2 i. induction l1 as [| a l1 IH]; intros [| b l2] [| i] H1 H2;
    try discriminate H1; try discriminate H2.
  - injection H1 as ->. injection H2 as ->. reflexivity.
  - cbn [combine nth_error] in *. apply IH; assumption.
Qed.

Lemma periods_loop_concat (fs : FS) (sat : string)
  (bands start_dates end_dates : list string) (loc_id : pyobj)
  (folder_name : string) (polygon : geometry) (latitude longitude : num) :
  (3 <= List.length bands)%nat ->
  (List.length start_dates <= List.length end_dates)%nat ->
  forall (n a : nat) (tasks : list task),
    (a + n <= List.length start_dates)%nat ->
    periods_loop fs sat bands start_dates end_dates loc_id folder_name polygon
      latitude longitude (map (fun k => 0 + Z.of_nat k) (seq a n)) tasks
    = Ok (tasks ++ flat_map (period_tasks fs sat bands loc_id folder_name polygon)
                     (firstn n (skipn a (combine start_dates end_dates)))).
Proof.
  intros Hbands Hdates.
  induction n as [| n IH]; intros a tasks Hrange.
  - simpl. rewrite app_nil_r. reflexivity.
  - cbn [seq map periods_loop]. rewrite Z.add_0_l.
    destruct (nth_error start_dates a) as [sd |] eqn:Hsd;
      [| apply nth_error_None in Hsd; lia].
    destruct (nth_error end_dates a) as [ed |] eqn:Hed;
      [| apply nth_error_None in Hed; lia].
    rewrite (py_getitem_nth _ _ Hsd), (py_getitem_nth _ _ Hed). cbn [bind].
    rewrite create_export_tasks_of_three by exact Hbands. cbn [bind].
    rewrite IH by lia.
    rewrite (skipn_cons_nth _ _ (nth_error_combine _ _ _ Hsd Hed)).
    cbn [firstn flat_map]. rewrite <- app_assoc. reflexivity.
Qed.

Lemma get_loc_satellite_tasks_ok (fs fs' : FS) (sat : string)
  (bands start_dates end_dates : list string) (loc_id : pyobj)
  (folder_name : string) (latitude longitude : num) (polygon_area : option num)
  (polygon : geometry) :
  create_circular_bb_polygon (latitude, longitude)
    (Some (match polygon_area with Some a => a | None => num_of_Z 100 end))
  = Ok polygon ->
  (if negb (path_exists fs ("/content/drive/MyDrive/" ++ folder_name))
   then os_mkdir fs ("/content/drive/MyDrive/" ++ folder_name)%string
   else Ok fs) = Ok fs' ->
  (3 <= List.length bands)%nat ->
  (List.length start_dates <= List.length end_dates)%nat ->
  get_loc_satellite_tasks fs sat bands start_dates end_dates loc_id folder_name
    latitude longitude polygon_area
  = Ok (fs', flat_map (period_tasks fs' sat bands loc_id folder_name polygon)
               (combine start_dates end_dates)).
Proof.
  intros Hpoly Hdir Hbands Hdates. unfold get_loc_satellite_tasks.
  rewrite Hpoly. cbn [bind]. rewrite Hdir. cbn [bind].
  rewrite py_range_step1. unfold py_len. rewrite Z.sub_0_r, Nat2Z.id.
  rewrite periods_loop_concat by (try assumption; lia).
  cbn [bind app skipn]. rewrite firstn_all2; [reflexivity |].
  rewrite length_combine. lia.
Qed.

Lemma negb_Qbool_zero (b : bool) : negb (Qeq_bool (Qbool b) 0) = b.
Proof. destruct b; reflexivity. Qed.

Lemma Qeq_bool_inject (a b : Z) : Qeq_bool (inject_Z a) (inject_Z b) = (a =? b).
Proof. unfold Qeq_bool, inject_Z. cbn [Qnum Qden]. rewrite !Z.mul_1_r. reflexivity. Qed.

Lemma eval_polygon_mask (p : pixel) (polygon : geometry) :
  eval_image p (polygon_mask_body polygon)
  = Some {| px_bands := px_bands p; px_valid := px_valid p && inside polygon |}.
Proof.
  unfold polygon_mask_body. cbn [eval_image option_map px_bands px_valid map fst].
  rewrite negb_Qbool_zero, andb_true_r. cbn [andb]. reflexivity.
Qed.

Lemma eval_getQABits_StateQA (p : pixel) (qa start end_ : Z) (newName : string) :
  lookup_band "StateQA" (px_bands p) = Some (inject_Z qa) ->
  eval_image p (getQABits (ImgSelect [BandName "StateQA"] ImgArg) start end_ newName)
  = Some (with_bands
            [(newName, inject_Z (Z.shiftr (Z.land qa (qa_pattern start end_)) start))] p).
Proof.
  intros Hqa. unfold getQABits.
  cbn [eval_image select_bands select_one]. rewrite Hqa.
  cbn [option_map with_bands px_bands px_valid select_bands select_one Z.ltb
       Z.compare Z.to_nat nth_error rename_bands map_values map fst snd].
  unfold map_values, with_bands. cbn [px_bands px_valid map fst snd].
  rewrite !Qfloor_Z. reflexivity.
Qed.

Lemma eval_maskCloud (p : pixel) (qa : Z) :
  lookup_band "StateQA" (px_bands p) = Some (inject_Z qa) ->
  eval_image p (maskCloud ImgArg)
  = Some {| px_bands := px_bands p;
            px_valid := px_valid p
                        && (Z.shiftr (Z.land qa (qa_pattern 8 13)) 8 =? 0) |}.
Proof.
  intros Hqa. unfold maskCloud. cbn [eval_image].
  fold (getQABits (ImgSelect [BandName "StateQA"] ImgArg) 8 13 "internal_quality_flag").
  rewrite (eval_getQABits_StateQA _ _ _ _ Hqa).
  unfold map_values, with_bands. cbn [option_map px_bands px_valid map fst snd].
  rewrite Qeq_bool_inject, negb_Qbool_zero.
  rewrite andb_diag. reflexivity.
Qed.

Lemma eval_norm_body (p : pixel) (band : string) (x : Q) (mn mx : number) :
  eval_image (with_bands [(band, x)] p) (norm_body mn mx)
  = Some (with_bands
            [(band, cast_uint8 (norm_scaled x (eval_number mn) (eval_number mx)))] p).
Proof. reflexivity. Qed.

Lemma norm_scaled_max (vmin vmax : Q) :
  ~ (vmax == vmin)%Q -> (norm_scaled vmax vmin vmax == 256)%Q.
Proof.
  intros Hne. unfold norm_scaled. field. intros H. apply Hne.
  rewrite <- (Qplus_0_r vmin), <- H. ring.
Qed.

Lemma lookup_set_band_same (name : string) (v : Q) (bs : list (string * Q)) :
  lookup_band name (set_band name v bs) = Some v.
Proof.
  induction bs as [| [n w] r IH]; cbn [set_band lookup_band].
  - rewrite String.eqb_refl. reflexivity.
  - destruct (String.eqb n name) eqn:E; cbn [lookup_band]; rewrite E; auto.
Qed.

Lemma lookup_set_band_other (name other : string) (v : Q) (bs : list (string * Q)) :
  other <> name ->
  lookup_band other (set_band name v bs) = lookup_band other bs.
Proof.
  intros Hne. induction bs as [| [n w] r IH]; cbn [set_band lookup_band].
  - replace (String.eqb name other) with false; [reflexivity |].
    symmetry. apply String.eqb_neq. congruence.
  - destruct (String.eqb n name) eqn:E; cbn [lookup_band].
    + apply String.eqb_eq in E. subst n.
      replace (String.eqb name other) with false; [reflexivity |].
      symmetry. apply String.eqb_neq. congruence.
    + rewrite IH. reflexivity.
Qed.

Lemma option_all_map (A B : Type) (f : A -> option B) (g : A -> B) (l : list A) :
  (forall a, In a l -> f a = Some (g a)) ->
  option_all (map f l) = Some (map g l).
Proof.
  induction l as [| a l IH]; intros H; [reflexivity |].
  cbn [map option_all]. rewrite (H a) by (left; reflexivity).
  rewrite IH by (intros b Hb; apply H; right; exact Hb). reflexivity.
Qed.

Lemma combine_overwrite_map (g : pixel -> pixel) (l : list pixel) :
  combine_overwrite l (map g l)
  = Some (map (fun p => with_bands (overwrite_bands (px_bands p) (px_bands (g p))) p) l).
Proof.
  induction l as [| p l IH]; [reflexivity |].
  cbn [map combine_overwrite]. rewrite IH. reflexivity.
Qed.

Lemma eval_norm_band (c : collection) (band : string) (polygon : geometry)
  (l : list pixel) :
  eval_collection c = Some l ->
  (forall p, In p l -> lookup_band band (px_bands p) <> None) ->
  eval_collection (norm_band c band polygon)
  = Some (map (normalize_pixel band
                 (reduce_region
                    (NumReduceRegion (CollMin (CollSelect [BandName band] c))
                       ReducerMin polygon max_pixels 500 band))
                 (reduce_region
                    (NumReduceRegion (CollMax (CollSelect [BandName band] c))
                       ReducerMax polygon max_pixels 500 band)))
            l).
Proof.
  intros Hc Hband. unfold norm_band. cbn [eval_collection]. rewrite Hc.
  rewrite (option_all_map _ (fun p => with_bands [(band, band_value band p)] p)).
  2:{ intros p Hp. specialize (Hband p Hp). unfold band_value.
      cbn [select_bands select_one].
      destruct (lookup_band band (px_bands p)); [reflexivity | congruence]. }
  rewrite map_map.
  rewrite (option_all_map _
             (fun p => with_bands
                [(band, cast_uint8 (norm_scaled (band_value band p)
                    (reduce_region
                       (NumReduceRegion (CollMin (CollSelect [BandName band] c))
                          ReducerMin polygon max_pixels 500 band))
                    (reduce_region
                       (NumReduceRegion (CollMax (CollSelect [BandName band] c))
                          ReducerMax polygon max_pixels 500 band))))] p)).
  2:{ intros p Hp. apply eval_norm_body. }
  rewrite combine_overwrite_map. reflexivity.
Qed.

(* ================================================================== *)
(** * The claims *)
(* ================================================================== *)

(** C2 (the code differs): for [0 <= start <= end] the pattern computed by
    [getQABits] is [2^end - 2^start]: its set bits are exactly the bits
    [start] to [end - 1].  Bit [end] is not set, because the loop runs over
    [range(start, end)]; the pattern with bits [start] to [end] included
    is larger by [2^end].  The returned expression selects band 0 renamed
    to [newName], ANDs it with the pattern and shifts it right by
    [start]. *)
Theorem getQABits_pattern_excludes_end_bit (im : image) (start end_ : Z)
  (newName : string) :
  0 <= start <= end_ ->
  getQABits im start end_ newName
  = ImgRightShift
      (ImgBitwiseAnd (ImgSelectAs [BandIndex 0] [newName] im) (2 ^ end_ - 2 ^ start))
      start
  /\ (forall i, 0 <= i ->
        Z.testbit (qa_pattern start end_) i = (start <=? i) && (i <? end_))
  /\ Z.testbit (qa_pattern start end_) end_ = false
  /\ qa_pattern_inclusive start end_ = qa_pattern start end_ + 2 ^ end_.
Proof.
  intros H. repeat split.
  - unfold getQABits. rewrite qa_pattern_closed_form by exact H. reflexivity.
  - intros i Hi. rewrite qa_pattern_closed_form by exact H.
    apply pow2_diff_testbit; assumption.
  - rewrite qa_pattern_closed_form by exact H.
    rewrite pow2_diff_testbit by lia.
    rewrite Z.ltb_irrefl. apply andb_false_r.
  - unfold qa_pattern_inclusive. fold (qa_pattern start (end_ + 1)).
    rewrite !qa_pattern_closed_form by lia.
    rewrite Z.pow_add_r by lia. lia.
Qed.

(** C5: for a band list of at least three elements the chunk list is the
    leading groups of three consecutive bands followed by the last three
    bands of the list; every chunk has exactly three elements and every
    band of the list occurs in some chunk.  There are as many chunks as
    groups of three are needed to hold the list, so the last chunk
    overlaps the one before it unless the length is a multiple of three,
    in which case the chunks put end to end are the list. *)
Theorem band_chunks_three_and_cover (A : Type) (bands : list A) :
  (3 <= List.length bands)%nat ->
  exists chunks,
    band_chunks bands = Ok chunks
    /\ chunks
       = map (fun k => firstn 3 (skipn (3 * k) bands))
           (seq 0 ((List.length bands - 1) / 3))
         ++ [skipn (List.length bands - 3) bands]
    /\ (forall c, In c chunks -> List.length c = 3%nat)
    /\ (forall b, In b bands -> exists c, In c chunks /\ In b c)
    /\ List.length chunks = ((List.length bands + 2) / 3)%nat
    /\ ((List.length bands mod 3 = 0)%nat -> List.concat chunks = bands).
Proof.
  intros Hlen. exists (chunks_of bands).
  split; [apply band_chunks_nonempty; not_nil Hlen |].
  split; [reflexivity |].
  split; [intros c; apply chunks_of_length; exact Hlen |].
  split; [intros b; apply chunks_of_cover; exact Hlen |].
  split; [apply chunks_of_count; lia |].
  apply chunks_of_partition. exact Hlen.
Qed.

(** C8: with no band the assignment [chunks[-1]] raises the index error of
    an empty list; with one band the access [bands_chunk[1]] and with two
    bands the access [bands_chunk[2]] raises it; with three bands or more
    no access is out of range and the call returns a task list. *)
Theorem create_export_tasks_index_errors (exists_ : string -> bool)
  (imgcoll : collection) (bands : list string) (folder_name : string)
  (polygon : geometry) (loc_id : pyobj) (lat lon : num)
  (start_date end_date : string) :
  (List.length bands = 0%nat ->
   band_chunks bands = Raise (IndexError (-1) 0)
   /\ create_export_tasks_for_all_bands exists_ imgcoll bands folder_name polygon
        loc_id lat lon start_date end_date = Raise (IndexError (-1) 0))
  /\ (List.length bands = 1%nat ->
      band_chunks bands = Ok [bands]
      /\ video_name bands loc_id start_date end_date = Raise (IndexError 1 1)
      /\ create_export_tasks_for_all_bands exists_ imgcoll bands folder_name polygon
           loc_id lat lon start_date end_date = Raise (IndexError 1 1))
  /\ (List.length bands = 2%nat ->
      band_chunks bands = Ok [bands]
      /\ video_name bands loc_id start_date end_date = Raise (IndexError 2 2)
      /\ create_export_tasks_for_all_bands exists_ imgcoll bands folder_name polygon
           loc_id lat lon start_date end_date = Raise (IndexError 2 2))
  /\ ((3 <= List.length bands)%nat ->
      exists chunks tasks,
        band_chunks bands = Ok chunks
        /\ (forall c, In c chunks -> exists name,
              video_name c loc_id start_date end_date = Ok name)
        /\ create_export_tasks_for_all_bands exists_ imgcoll bands folder_name polygon
             loc_id lat lon start_date end_date = Ok tasks).
Proof.
  repeat split.
  - destruct bands; [reflexivity | discriminate].
  - destruct bands; [reflexivity | discriminate].
  - destruct bands as [| b0 [| b1 r]]; try discriminate. reflexivity.
  - destruct bands as [| b0 [| b1 r]]; try discriminate. reflexivity.
  - destruct bands as [| b0 [| b1 r]]; try discriminate. reflexivity.
  - destruct bands as [| b0 [| b1 [| b2 r]]]; try discriminate. reflexivity.
  - destruct bands as [| b0 [| b1 [| b2 r]]]; try discriminate. reflexivity.
  - destruct bands as [| b0 [| b1 [| b2 r]]]; try discriminate. reflexivity.
  - intros Hlen. exists (chunks_of bands). eexists. repeat split.
    + apply band_chunks_nonempty. not_nil Hlen.
    + intros c Hc. eexists. apply video_name_of_three.
      apply (chunks_of_length bands); assumption.
    + apply create_export_tasks_of_three. exact Hlen.
Qed.

(** C1 (the code differs): for a band list of at least three elements the
    call returns, in chunk order, one task per chunk whose video file is
    missing and none for the others.  The name of a chunk is built from
    its three bands, [str(loc_id)] and the two dates, with every
    apostrophe and every period removed.  The path looked at is built
    with [os.path.join]: for a non-empty [folder_name] that neither starts
    nor ends with ['/'] it is
    '/content/drive/MyDrive/<folder_name>/<vid_name>.mp4', the file the
    docstring and the folder made by [get_loc_satellite_tasks] point to;
    for a [folder_name] that starts with ['/'] it is not that file. *)
Theorem create_export_tasks_skip_existing (exists_ : string -> bool)
  (imgcoll : collection) (bands : list string) (folder_name : string)
  (polygon : geometry) (loc_id : pyobj) (lat lon : num)
  (start_date end_date : string) :
  (3 <= List.length bands)%nat ->
  exists chunks tasks,
    band_chunks bands = Ok chunks
    /\ create_export_tasks_for_all_bands exists_ imgcoll bands folder_name polygon
         loc_id lat lon start_date end_date = Ok tasks
    /\ tasks
       = map (chunk_task imgcoll folder_name polygon loc_id start_date end_date)
           (filter
              (fun c => negb (exists_
                 (os_path_join "/content/drive/MyDrive/"
                    [folder_name;
                     (chunk_video_name loc_id start_date end_date c ++ ".mp4")%string])))
              chunks)
    /\ forall c, In c chunks ->
         let vid_name := chunk_video_name loc_id start_date end_date c in
         let path :=
           os_path_join "/content/drive/MyDrive/"
             [folder_name; (vid_name ++ ".mp4")%string] in
         vid_name
         = str_remove "." (str_remove "'"
             ("bands:" ++ nth 0 c "" ++ "," ++ nth 1 c "" ++ "," ++ nth 2 c ""
                ++ ";loc:" ++ py_str loc_id ++ ";s:" ++ start_date
                ++ ";e:" ++ end_date))%string
         /\ str_mem "'" vid_name = false
         /\ str_mem "." vid_name = false
         /\ task_description
              (chunk_task imgcoll folder_name polygon loc_id start_date end_date c)
            = vid_name
         /\ (In (chunk_task imgcoll folder_name polygon loc_id start_date end_date c)
               tasks
             <-> exists_ path = false)
         /\ (folder_name <> EmptyString ->
             starts_with_sep folder_name = false ->
             ends_with_sep folder_name = false ->
             path = ("/content/drive/MyDrive/" ++ folder_name ++ "/" ++ vid_name
                       ++ ".mp4")%string)
         /\ (starts_with_sep folder_name = true ->
             path <> ("/content/drive/MyDrive/" ++ folder_name ++ "/" ++ vid_name
                        ++ ".mp4")%string).
Proof.
  intros Hlen. exists (chunks_of bands). eexists. split; [| split; [| split]].
  - apply band_chunks_nonempty. not_nil Hlen.
  - apply create_export_tasks_of_three. exact Hlen.
  - reflexivity.
  - intros c Hc vid_name path.
    split; [reflexivity |].
    split; [apply str_remove_keeps_absent, str_remove_absent |].
    split; [apply str_remove_absent |].
    split; [reflexivity |].
    split; [split |].
    + intros Hin. unfold tasks_of_chunks in Hin.
      apply in_map_iff in Hin. destruct Hin as (c' & Heq & Hc').
      apply filter_In in Hc'. destruct Hc' as [_ Hmiss].
      unfold chunk_missing in Hmiss. apply negb_true_iff in Hmiss.
      apply (f_equal task_description) in Heq.
      unfold chunk_task, create_export_vid_bands_task in Heq.
      cbn [task_description] in Heq.
      unfold path, vid_name. rewrite <- Heq. exact Hmiss.
    + intros Hmiss. unfold tasks_of_chunks. apply in_map. apply filter_In.
      split; [exact Hc |]. unfold chunk_missing. apply negb_true_iff. exact Hmiss.
    + split; [intros Hne Hstart Hend; apply video_path_plain; assumption |].
      intros Habs Hsame. unfold path in Hsame.
      fold (video_path folder_name vid_name) in Hsame.
      rewrite video_path_absolute in Hsame;
        [| exact Habs
         | unfold vid_name;
           destruct (chunk_video_name_head loc_id start_date end_date c)
             as (rest & ->); reflexivity].
      apply (f_equal String.length) in Hsame.
      destruct (ends_with_sep folder_name);
        rewrite !str_length_app in Hsame; simpl String.length in Hsame; lia.
Qed.

(** C3: [maskCloud] selects the band 'StateQA', extracts the quality flag
    with [getQABits(QA, 8, 13, 'internal_quality_flag')] and updates the
    mask of the image with the comparison of the extracted bits to zero.
    At a pixel whose 'StateQA' value is [qa], the band values of the image
    are unchanged; the pixel is masked out when the extracted bits are
    nonzero and keeps its validity when they are zero. *)
Theorem maskCloud_masks_flagged_pixels (im : image) (p : pixel) (qa : Z) :
  lookup_band "StateQA" (px_bands p) = Some (inject_Z qa) ->
  let bits := Z.shiftr (Z.land qa (qa_pattern 8 13)) 8 in
  maskCloud im
  = ImgUpdateMask im
      (ImgEq (getQABits (ImgSelect [BandName "StateQA"] im) 8 13
                "internal_quality_flag") 0)
  /\ eval_image p
       (getQABits (ImgSelect [BandName "StateQA"] ImgArg) 8 13 "internal_quality_flag")
     = Some (with_bands [("internal_quality_flag"%string, inject_Z bits)] p)
  /\ exists p',
       eval_image p (maskCloud ImgArg) = Some p'
       /\ px_bands p' = px_bands p
       /\ px_valid p' = px_valid p && (bits =? 0)
       /\ (bits = 0 -> px_valid p' = px_valid p)
       /\ (bits <> 0 -> px_valid p' = false).
Proof.
  intros Hqa bits. split; [reflexivity |].
  split; [apply eval_getQABits_StateQA; exact Hqa |].
  eexists. split; [apply eval_maskCloud; exact Hqa |].
  cbn [px_bands px_valid]. fold bits.
  split; [reflexivity |]. split; [reflexivity |]. split.
  - intros ->. apply andb_true_r.
  - intros Hnz. apply Z.eqb_neq in Hnz. rewrite Hnz. apply andb_false_r.
Qed.

(** C4: for a centre [(latitude, longitude)] and an area [a] whose buffer
    is a polygon with an exterior ring (as it is for a positive [a]),
    [create_circular_bb_polygon] builds the point [(longitude, latitude)],
    projects it from WGS84 to the azimuthal equidistant projection with
    [R=6371000] centred at that point, buffers it by [a*1000], projects
    the buffer back and returns the polygon of the exterior ring. *)
Theorem create_circular_bb_polygon_exterior_ring (latitude longitude a : num)
  (exterior : list (num * num)) (holes : list (list (num * num))) :
  let aeqd :=
    ("+proj=aeqd +R=6371000 +units=m +lat_0=" ++ num_fmt latitude
       ++ " +lon_0=" ++ num_fmt longitude)%string in
  let longlat := "+proj=longlat +datum=WGS84 +no_defs"%string in
  shapely_buffer (pyproj_transform longlat aeqd (longitude, latitude))
    (num_mul a (num_of_Z 1000)) = exterior :: holes ->
  create_circular_bb_polygon (latitude, longitude) (Some a)
  = Ok (GeomPolygon (map (pyproj_transform aeqd longlat) exterior)).
Proof.
  intros aeqd longlat Hbuf. unfold create_circular_bb_polygon.
  cbn [fst snd]. unfold local_azimuthal_projection, wgs84. cbn [fst snd].
  fold aeqd. fold longlat. rewrite Hbuf. reflexivity.
Qed.

(** C6 (amended): for [n >= 0], [start_multiple_tasks(tasks, n)] returns the
    pair [(tasks[:k], tasks[k:])] with [k = min(n, len(tasks))]; the first
    list has length [k], the tasks the call starts are those of the first
    list, in order, each followed by a sleep, and the two lists
    concatenated give the input.  A task of the second list is started
    only if the same task object also occurs in the first list; when no
    task object occurs twice in the input, none of the second list is
    started. *)
Theorem start_multiple_tasks_batches (tasks : list task_obj) (n : Z)
  (log : list effect) :
  0 <= n ->
  let k := Z.min n (py_len tasks) in
  let first := py_slice tasks None (Some k) in
  let second := py_slice tasks (Some k) None in
  exists effects,
    start_multiple_tasks tasks n log = ((first, second), log ++ effects)
    /\ first = firstn (Z.to_nat k) tasks
    /\ second = skipn (Z.to_nat k) tasks
    /\ py_len first = k
    /\ effects = flat_map (fun t => [TaskStart t; Sleep 500]) first
    /\ started effects = first
    /\ first ++ second = tasks
    /\ (forall t, In t second -> In t (started effects) -> In t first)
    /\ (NoDup tasks -> forall t, In t second -> ~ In t (started effects)).
Proof.
  intros Hn k first second.
  assert (Hk : 0 <= k <= py_len tasks) by (unfold k, py_len; lia).
  assert (Hfirst : first = firstn (Z.to_nat k) tasks)
    by (apply py_slice_prefix; lia).
  assert (Hsecond : second = skipn (Z.to_nat k) tasks)
    by (apply py_slice_suffix; lia).
  exists (flat_map (fun t => [TaskStart t; Sleep 500]) first).
  rewrite started_starts.
  split; [unfold start_multiple_tasks; fold k; fold first; fold second;
          rewrite start_loop_log; reflexivity |].
  split; [exact Hfirst |]. split; [exact Hsecond |].
  split; [rewrite Hfirst; unfold py_len in *; rewrite length_firstn; lia |].
  split; [reflexivity |]. split; [reflexivity |].
  split; [rewrite Hfirst, Hsecond; apply firstn_skipn |].
  split; [intros t _ Ht; exact Ht |].
  intros Hnd t Ht. apply (NoDup_app_disjoint first second); [| exact Ht].
  rewrite Hfirst, Hsecond, firstn_skipn. exact Hnd.
Qed.


(** C9 (amended): [norm_band] maps each pixel value [x] of the band to
    [uint8(((x - min) / (max - min)) * 256)], [min] and [max] being the
    results of reducing the minimum and the maximum image of the band
    over the polygon at scale 500; when [max] differs from [min] a pixel
    equal to [max] is scaled to 256, above 255, before the cast.  In the
    returned collection every image has the normalised value in that
    band and its other bands and its mask unchanged. *)
Theorem norm_band_rescales_band (c : collection) (band : string)
  (polygon : geometry) (l : list pixel) :
  let colIm := CollSelect [BandName band] c in
  let minValue :=
    NumReduceRegion (CollMin colIm) ReducerMin polygon 100000000000 500 band in
  let maxValue :=
    NumReduceRegion (CollMax colIm) ReducerMax polygon 100000000000 500 band in
  let vmin := reduce_region minValue in
  let vmax := reduce_region maxValue in
  let scaled x := ((x - vmin) / (vmax - vmin) * 256)%Q in
  eval_collection c = Some l ->
  (forall p, In p l -> lookup_band band (px_bands p) <> None) ->
  norm_band c band polygon
  = CollCombine c
      (CollMap
         (ImgUint8
            (ImgMultiply
               (ImgDivide (ImgSubtract ImgArg minValue) (NumSubtract maxValue minValue))
               256))
         colIm)
      true
  /\ (forall p x,
        eval_image (with_bands [(band, x)] p)
          (ImgMultiply
             (ImgDivide (ImgSubtract ImgArg minValue) (NumSubtract maxValue minValue))
             256)
        = Some (with_bands [(band, scaled x)] p)
        /\ eval_image (with_bands [(band, x)] p) (norm_body minValue maxValue)
           = Some (with_bands [(band, cast_uint8 (scaled x))] p))
  /\ (~ (vmax == vmin)%Q -> (scaled vmax == 256)%Q /\ (255 < scaled vmax)%Q)
  /\ exists l',
       eval_collection (norm_band c band polygon) = Some l'
       /\ List.length l' = List.length l
       /\ forall i p, nth_error l i = Some p ->
            exists p' x,
              nth_error l' i = Some p'
              /\ lookup_band band (px_bands p) = Some x
              /\ lookup_band band (px_bands p') = Some (cast_uint8 (scaled x))
              /\ (forall other, other <> band ->
                    lookup_band other (px_bands p') = lookup_band other (px_bands p))
              /\ px_valid p' = px_valid p.
Proof.
  intros colIm minValue maxValue vmin vmax scaled Hc Hband.
  split; [reflexivity |].
  split; [intros p x; split; reflexivity |].
  split.
  - intros Hne. pose proof (norm_scaled_max Hne) as H256.
    unfold norm_scaled in H256. fold (scaled vmax) in H256.
    split; [exact H256 |]. rewrite H256. reflexivity.
  - eexists. split; [apply eval_norm_band; eassumption |].
    split; [apply length_map |].
    intros i p Hp.
    assert (Hin : In p l) by (eapply nth_error_In; exact Hp).
    specialize (Hband p Hin).
    destruct (lookup_band band (px_bands p)) as [x |] eqn:Hx; [| congruence].
    eexists. exists x.
    split; [apply map_nth_error; exact Hp |].
    split; [reflexivity |].
    unfold normalize_pixel, with_bands, band_value. cbn [px_bands px_valid].
    rewrite Hx.
    split; [apply lookup_set_band_same |].
    split; [| reflexivity].
    intros other Hother. apply lookup_set_band_other. exact Hother.
Qed.

(** C10: for a [year] that [int()] accepts, [get_loc_tasks] is the call of
    [get_loc_satellite_tasks] with the one-element lists
    [[str(int(year)) + '-04-01']] and [[str(int(year)) + '-09-30']], the
    other arguments as given and [polygon_area] defaulting to 50 (the
    callee's own default being 100), and returns its result; that result
    holds the tasks of this single window. *)
Theorem get_loc_tasks_single_window (fs : FS) (latitude longitude : num)
  (year loc_id : pyobj) (sat folder_name : string) (bands : list string)
  (polygon_area : option num) (y : Z) :
  py_int year = Some y ->
  let start_date := (py_str_int y ++ "-04-01")%string in
  let end_date := (py_str_int y ++ "-09-30")%string in
  let area := match polygon_area with Some a => a | None => num_of_Z 50 end in
  get_loc_tasks fs latitude longitude year loc_id sat folder_name bands polygon_area
  = get_loc_satellite_tasks fs sat bands [start_date] [end_date] loc_id folder_name
      latitude longitude (Some area)
  /\ get_loc_satellite_tasks fs sat bands [start_date] [end_date] loc_id folder_name
       latitude longitude None
     = get_loc_satellite_tasks fs sat bands [start_date] [end_date] loc_id folder_name
         latitude longitude (Some (num_of_Z 100))
  /\ forall polygon fs',
       create_circular_bb_polygon (latitude, longitude) (Some area) = Ok polygon ->
       (if negb (path_exists fs ("/content/drive/MyDrive/" ++ folder_name))
        then os_mkdir fs ("/content/drive/MyDrive/" ++ folder_name)%string
        else Ok fs) = Ok fs' ->
       (3 <= List.length bands)%nat ->
       get_loc_tasks fs latitude longitude year loc_id sat folder_name bands
         polygon_area
       = Ok (fs',
             tasks_of_chunks (path_exists fs')
               (prepare_collection sat bands polygon start_date end_date)
               folder_name polygon loc_id start_date end_date (chunks_of bands)).
Proof.
  intros Hint start_date end_date area.
  assert (Hcall :
    get_loc_tasks fs latitude longitude year loc_id sat folder_name bands polygon_area
    = get_loc_satellite_tasks fs sat bands [start_date] [end_date] loc_id folder_name
        latitude longitude (Some area)).
  { unfold get_loc_tasks, py_int_call. rewrite Hint. reflexivity. }
  split; [exact Hcall |]. split; [reflexivity |].
  intros polygon fs' Hpoly Hdir Hbands. rewrite Hcall.
  erewrite get_loc_satellite_tasks_ok;
    [| exact Hpoly | exact Hdir | exact Hbands | simpl; lia].
  cbn [combine flat_map]. rewrite app_nil_r. reflexivity.
Qed.

(* ================================================================== *)
(** * Further properties *)
(* ================================================================== *)

(** ** Batches of tasks *)

Lemma py_slice_prefix_neg (A : Type) (l : list A) (k : Z) :
  k < 0 -> py_slice l None (Some k) = firstn (Z.to_nat (py_len l + k)) l.
Proof.
  intros Hk. unfold py_slice, slice_bound, py_len.
  ltb_true k 0. rewrite Z.sub_0_r. cbn [Z.to_nat skipn].
  f_equal. lia.
Qed.

Lemma py_slice_suffix_neg (A : Type) (l : list A) (k : Z) :
  k < 0 -> py_slice l (Some k) None = skipn (Z.to_nat (py_len l + k)) l.
Proof.
  intros Hk. unfold py_slice, slice_bound, py_len.
  ltb_true k 0.
  replace (Z.to_nat (Z.max 0 (k + Z.of_nat (List.length l))))
    with (Z.to_nat (Z.of_nat (List.length l) + k)) by lia.
  apply firstn_all2. rewrite length_skipn. lia.
Qed.

Lemma start_multiple_tasks_nonneg (tasks : list task_obj) (n : Z) (log : list effect) :
  0 <= n ->
  start_multiple_tasks tasks n log
  = ((firstn (Z.to_nat (Z.min n (py_len tasks))) tasks,
      skipn (Z.to_nat (Z.min n (py_len tasks))) tasks),
     log ++ flat_map (fun t => [TaskStart t; Sleep 500])
              (firstn (Z.to_nat (Z.min n (py_len tasks))) tasks)).
Proof.
  intros Hn. unfold start_multiple_tasks.
  assert (Hk : 0 <= Z.min n (py_len tasks)) by (unfold py_len; lia).
  rewrite py_slice_prefix, py_slice_suffix, start_loop_log by exact Hk.
  reflexivity.
Qed.

Lemma total_sleep_app (l1 l2 : list effect) :
  total_sleep (l1 ++ l2) = total_sleep l1 + total_sleep l2.
Proof.
  induction l1 as [| [t | ms] l1 IH]; cbn [app total_sleep]; lia.
Qed.

Lemma total_sleep_starts (ts : list task_obj) :
  total_sleep (flat_map (fun t => [TaskStart t; Sleep 500]) ts) = 500 * py_len ts.
Proof.
  unfold py_len. induction ts as [| t ts IH]; [reflexivity |].
  cbn [flat_map app total_sleep List.length]. rewrite IH. lia.
Qed.

(** X1: a negative [n] counts from the end of the list: the call starts
    all the tasks but the last [-n] (none when the list has no more than
    [-n] tasks) and returns those last tasks as the remainder. *)
Theorem start_multiple_tasks_negative_n (tasks : list task_obj) (n : Z)
  (log : list effect) :
  n < 0 ->
  let j := Z.to_nat (py_len tasks + n) in
  start_multiple_tasks tasks n log
  = ((firstn j tasks, skipn j tasks),
     log ++ flat_map (fun t => [TaskStart t; Sleep 500]) (firstn j tasks))
  /\ (py_len tasks <= - n -> fst (start_multiple_tasks tasks n log) = ([], tasks))
  /\ (- n <= py_len tasks ->
      py_len (snd (fst (start_multiple_tasks tasks n log))) = - n).
Proof.
  intros Hn j.
  assert (Hrun : start_multiple_tasks tasks n log
                 = ((firstn j tasks, skipn j tasks),
                    log ++ flat_map (fun t => [TaskStart t; Sleep 500]) (firstn j tasks))).
  { unfold start_multiple_tasks.
    replace (Z.min n (py_len tasks)) with n by (unfold py_len; lia).
    rewrite py_slice_prefix_neg, py_slice_suffix_neg, start_loop_log by exact Hn.
    reflexivity. }
  split; [exact Hrun |]. rewrite Hrun. cbn [fst snd]. split.
  - intros Hshort. replace j with 0%nat by (unfold j; lia). reflexivity.
  - intros Hlong. unfold py_len in *. rewrite length_skipn. lia.
Qed.

(** X2: with [n] at least the length of the list every task is started,
    in list order, and nothing remains; with [n = 0] nothing is started,
    the log is unchanged and the whole list remains. *)
Theorem start_multiple_tasks_all_or_none (tasks : list task_obj) (n : Z)
  (log : list effect) :
  (py_len tasks <= n ->
   start_multiple_tasks tasks n log
   = ((tasks, []), log ++ flat_map (fun t => [TaskStart t; Sleep 500]) tasks))
  /\ (n = 0 -> start_multiple_tasks tasks n log = (([], tasks), log)).
Proof.
  split.
  - intros Hall. rewrite start_multiple_tasks_nonneg by (unfold py_len in *; lia).
    rewrite Z.min_r by exact Hall. unfold py_len. rewrite Nat2Z.id.
    rewrite firstn_all, skipn_all. reflexivity.
  - intros ->. rewrite start_multiple_tasks_nonneg by lia.
    replace (Z.min 0 (py_len tasks)) with 0 by (unfold py_len; lia).
    cbn [Z.to_nat firstn skipn flat_map]. rewrite app_nil_r. reflexivity.
Qed.

(** X3: batches compose: starting [n] tasks and then [m] tasks of the
    remainder returns the same remainder and the same log as starting
    [n + m] tasks at once, and the two started lists put together are the
    started list of the single call. *)
Theorem start_multiple_tasks_twice (tasks : list task_obj) (n m : Z)
  (log : list effect) :
  0 <= n -> 0 <= m ->
  let r1 := start_multiple_tasks tasks n log in
  let r2 := start_multiple_tasks (snd (fst r1)) m (snd r1) in
  start_multiple_tasks tasks (n + m) log
  = ((fst (fst r1) ++ fst (fst r2), snd (fst r2)), snd r2).
Proof.
  intros Hn Hm r1 r2. unfold r2, r1.
  rewrite (start_multiple_tasks_nonneg tasks log Hn). cbn [fst snd].
  rewrite (start_multiple_tasks_nonneg _ _ Hm). cbn [fst snd].
  rewrite start_multiple_tasks_nonneg by lia.
  set (k1 := Z.to_nat (Z.min n (py_len tasks))).
  set (k2 := Z.to_nat (Z.min m (py_len (skipn k1 tasks)))).
  replace (Z.to_nat (Z.min (n + m) (py_len tasks))) with (k1 + k2)%nat.
  - rewrite firstn_plus, skipn_skipn, flat_map_app, <- app_assoc.
    replace (k2 + k1)%nat with (k1 + k2)%nat by lia. reflexivity.
  - unfold k2, k1, py_len. rewrite length_skipn. lia.
Qed.

(** X4: a call with [n >= 0] adds two effects per started task to the
    log, and the sleeps it adds come to [500 * min(n, len(tasks))]
    milliseconds in all: half a second per started task. *)
Theorem start_multiple_tasks_sleep_time (tasks : list task_obj) (n : Z)
  (log : list effect) :
  0 <= n ->
  let r := start_multiple_tasks tasks n log in
  total_sleep (snd r) = total_sleep log + 500 * Z.min n (py_len tasks)
  /\ py_len (snd r) = py_len log + 2 * Z.min n (py_len tasks).
Proof.
  intros Hn r. unfold r. rewrite start_multiple_tasks_nonneg by exact Hn.
  cbn [snd]. rewrite total_sleep_app, total_sleep_starts.
  assert (Hlen : py_len (firstn (Z.to_nat (Z.min n (py_len tasks))) tasks)
                 = Z.min n (py_len tasks))
    by (unfold py_len; rewrite length_firstn; lia).
  rewrite Hlen. split; [reflexivity |].
  unfold py_len at 1 2. rewrite length_app, Nat2Z.inj_add. f_equal.
  rewrite <- Hlen. unfold py_len.
  generalize (firstn (Z.to_nat (Z.min n (Z.of_nat (List.length tasks)))) tasks).
  intros ts. induction ts as [| t ts IH]; [reflexivity |].
  cbn [flat_map app List.length]. lia.
Qed.

(** ** Quality bits and masks *)

Lemma shiftr_land_pattern (qa start end_ : Z) :
  0 <= start <= end_ ->
  Z.shiftr (Z.land qa (qa_pattern start end_)) start
  = (qa / 2 ^ start) mod 2 ^ (end_ - start).
Proof.
  intros H. rewrite qa_pattern_closed_form, pow2_diff_shiftl by exact H.
  rewrite Z.shiftr_land, Z.shiftr_shiftl_l by lia.
  rewrite Z.sub_diag, Z.shiftl_0_r, Z.land_ones by lia.
  rewrite Z.shiftr_div_pow2 by lia. reflexivity.
Qed.

Lemma qa_pattern_empty_range (start end_ : Z) :
  end_ <= start -> qa_pattern start end_ = 0.
Proof.
  intros H. unfold qa_pattern. rewrite py_range_step1.
  replace (Z.to_nat (end_ - start)) with 0%nat by lia. reflexivity.
Qed.

Lemma eval_getQABits_first_band (p : pixel) (n0 : string) (v : Q)
  (rest : list (string * Q)) (start end_ : Z) (newName : string) :
  px_bands p = (n0, v) :: rest ->
  eval_image p (getQABits ImgArg start end_ newName)
  = Some (with_bands
            [(newName,
              inject_Z (Z.shiftr (Z.land (Qfloor v) (qa_pattern start end_)) start))] p).
Proof.
  intros Hp. unfold getQABits.
  cbn [eval_image select_bands select_one Z.ltb Z.compare Z.to_nat]. rewrite Hp.
  cbn [nth_error rename_bands option_map].
  unfold map_values, with_bands. cbn [px_bands px_valid map fst snd].
  rewrite Qfloor_Z. reflexivity.
Qed.

Lemma eval_maskCloud_after (p p1 : pixel) (im : image) (qa : Z) :
  eval_image p im = Some p1 ->
  lookup_band "StateQA" (px_bands p1) = Some (inject_Z qa) ->
  eval_image p (maskCloud im)
  = Some {| px_bands := px_bands p1;
            px_valid := px_valid p1
                        && (Z.shiftr (Z.land qa (qa_pattern 8 13)) 8 =? 0) |}.
Proof.
  intros Him Hqa. unfold maskCloud, getQABits.
  cbn [eval_image select_bands select_one]. rewrite Him, Hqa.
  cbn [option_map with_bands px_bands px_valid select_bands select_one Z.ltb
       Z.compare Z.to_nat nth_error rename_bands].
  unfold map_values, with_bands. cbn [option_map px_bands px_valid map fst snd].
  rewrite !Qfloor_Z, Qeq_bool_inject, negb_Qbool_zero, andb_diag. reflexivity.
Qed.

(** X5: for [0 <= start <= end], [getQABits] turns the value [qa] of band 0
    into [(qa // 2**start) % 2**(end - start)], the field of the
    [end - start] bits from bit [start] on, under the new band name; the
    result lies in [0, 2**(end - start)). *)
Theorem getQABits_extracts_bit_field (p : pixel) (n0 : string) (qa : Z)
  (rest : list (string * Q)) (start end_ : Z) (newName : string) :
  0 <= start <= end_ ->
  px_bands p = (n0, inject_Z qa) :: rest ->
  let field := (qa / 2 ^ start) mod 2 ^ (end_ - start) in
  eval_image p (getQABits ImgArg start end_ newName)
  = Some (with_bands [(newName, inject_Z field)] p)
  /\ 0 <= field < 2 ^ (end_ - start).
Proof.
  intros H Hp field. split.
  - rewrite (eval_getQABits_first_band _ _ _ _ Hp), Qfloor_Z.
    rewrite shiftr_land_pattern by exact H. reflexivity.
  - apply Z.mod_pos_bound. apply Z.pow_pos_nonneg; lia.
Qed.

(** X6: when [end <= start] the loop of [getQABits] does not run, the
    pattern is 0 and the extracted value is 0 whatever the band holds; in
    particular [getQABits(image, b, b, name)] does not read bit [b]. *)
Theorem getQABits_empty_range (p : pixel) (n0 : string) (v : Q)
  (rest : list (string * Q)) (start end_ : Z) (newName : string) :
  end_ <= start ->
  px_bands p = (n0, v) :: rest ->
  qa_pattern start end_ = 0
  /\ eval_image p (getQABits ImgArg start end_ newName)
     = Some (with_bands [(newName, 0%Q)] p).
Proof.
  intros H Hp. split; [apply qa_pattern_empty_range; exact H |].
  rewrite (eval_getQABits_first_band _ _ _ _ Hp).
  rewrite qa_pattern_empty_range by exact H.
  rewrite Z.land_0_r, Z.shiftr_0_l. reflexivity.
Qed.

(** X7: masking clouds twice is masking them once: at every pixel with an
    integer 'StateQA' value, [maskCloud(maskCloud(image))] and
    [maskCloud(image)] give the same bands and the same validity. *)
Theorem maskCloud_idempotent (p : pixel) (qa : Z) :
  lookup_band "StateQA" (px_bands p) = Some (inject_Z qa) ->
  eval_image p (maskCloud (maskCloud ImgArg)) = eval_image p (maskCloud ImgArg).
Proof.
  intros Hqa.
  rewrite (eval_maskCloud_after p ImgArg eq_refl Hqa).
  erewrite eval_maskCloud_after;
    [| apply (eval_maskCloud_after p ImgArg eq_refl Hqa) | exact Hqa].
  cbn [px_bands px_valid]. rewrite <- andb_assoc, andb_diag. reflexivity.
Qed.

Lemma eval_cloud_mask_map (c : collection) (l : list pixel) :
  eval_collection c = Some l ->
  (forall p, In p l -> exists qa : Z,
       lookup_band "StateQA" (px_bands p) = Some (inject_Z qa)) ->
  eval_collection (CollMap (maskCloud ImgArg) c)
  = Some (map (fun p => {| px_bands := px_bands p;
                           px_valid := px_valid p && (cloud_bits p =? 0) |}) l).
Proof.
  intros Hc Hqa. cbn [eval_collection]. rewrite Hc.
  apply option_all_map. intros p Hp. destruct (Hqa p Hp) as (qa & Hlook).
  rewrite (eval_maskCloud_after p ImgArg eq_refl Hlook).
  unfold cloud_bits, band_value. rewrite Hlook, Qfloor_Z. reflexivity.
Qed.

Lemma eval_polygon_mask_map (c : collection) (polygon : geometry) (l : list pixel) :
  eval_collection c = Some l ->
  eval_collection (CollMap (polygon_mask_body polygon) c)
  = Some (map (fun p => {| px_bands := px_bands p;
                           px_valid := px_valid p && inside polygon |}) l).
Proof.
  intros Hc. cbn [eval_collection]. rewrite Hc.
  apply option_all_map. intros p _. apply eval_polygon_mask.
Qed.

(** X8: the two masking steps of a MODIS period compose at a pixel into
    one test: an image stays valid there exactly when it was valid, its
    QA bits read by [maskCloud] are zero and the pixel lies in the
    polygon; the band values are untouched, the images keep their number
    and order, and the two steps can be swapped. *)
Theorem cloud_and_polygon_masks (c : collection) (polygon : geometry)
  (l : list pixel) :
  eval_collection c = Some l ->
  (forall p, In p l -> exists qa : Z,
       lookup_band "StateQA" (px_bands p) = Some (inject_Z qa)) ->
  eval_collection (CollMap (polygon_mask_body polygon) (CollMap (maskCloud ImgArg) c))
  = Some (map (fun p => {| px_bands := px_bands p;
                           px_valid := px_valid p && (cloud_bits p =? 0)
                                       && inside polygon |}) l)
  /\ eval_collection (CollMap (maskCloud ImgArg) (CollMap (polygon_mask_body polygon) c))
     = eval_collection (CollMap (polygon_mask_body polygon) (CollMap (maskCloud ImgArg) c)).
Proof.
  intros Hc Hqa.
  assert (Hfirst :
    eval_collection (CollMap (polygon_mask_body polygon) (CollMap (maskCloud ImgArg) c))
    = Some (map (fun p => {| px_bands := px_bands p;
                             px_valid := px_valid p && (cloud_bits p =? 0)
                                         && inside polygon |}) l)).
  { rewrite (eval_polygon_mask_map _ polygon (eval_cloud_mask_map _ Hc Hqa)).
    rewrite map_map. reflexivity. }
  split; [exact Hfirst |]. rewrite Hfirst.
  rewrite (eval_cloud_mask_map _ (eval_polygon_mask_map _ polygon Hc)).
  - rewrite map_map. f_equal. apply map_ext. intros p.
    unfold cloud_bits, band_value. cbn [px_bands px_valid].
    destruct (px_valid p), (inside polygon),
      (Z.shiftr (Z.land (Qfloor match lookup_band "StateQA" (px_bands p) with
                                 | Some x => x
                                 | None => 0%Q
                                 end) (qa_pattern 8 13)) 8 =? 0); reflexivity.
  - intros p' Hp'. apply in_map_iff in Hp'. destruct Hp' as (p & <- & Hp).
    cbn [px_bands]. apply Hqa. exact Hp.
Qed.

(** ** Normalisation *)

Lemma norm_scaled_le (vmin vmax x y : Q) :
  (vmin < vmax)%Q -> (x <= y)%Q ->
  (norm_scaled x vmin vmax <= norm_scaled y vmin vmax)%Q.
Proof.
  intros Hd Hxy. unfold norm_scaled, Qdiv.
  assert (Hinv : (0 < / (vmax - vmin))%Q).
  { apply Qinv_lt_0_compat. rewrite <- (Qplus_opp_r vmin).
    apply Qplus_lt_l. exact Hd. }
  apply Qmult_le_compat_r; [| discriminate].
  apply Qmult_le_compat_r; [| apply Qlt_le_weak; exact Hinv].
  apply Qplus_le_l. exact Hxy.
Qed.

Lemma norm_scaled_lt (vmin vmax x y : Q) :
  (vmin < vmax)%Q -> (x < y)%Q ->
  (norm_scaled x vmin vmax < norm_scaled y vmin vmax)%Q.
Proof.
  intros Hd Hxy. unfold norm_scaled, Qdiv.
  assert (Hinv : (0 < / (vmax - vmin))%Q).
  { apply Qinv_lt_0_compat. rewrite <- (Qplus_opp_r vmin).
    apply Qplus_lt_l. exact Hd. }
  apply Qmult_lt_compat_r; [reflexivity |].
  apply Qmult_lt_compat_r; [exact Hinv |].
  apply Qplus_lt_l. exact Hxy.
Qed.

Lemma norm_scaled_min (vmin vmax : Q) : (norm_scaled vmin vmin vmax == 0)%Q.
Proof. unfold norm_scaled, Qdiv. ring. Qed.

(** X9: when the reduced minimum is below the reduced maximum, the value
    [norm_band] hands to the [uint8] cast grows with the pixel value: the
    minimum goes to 0, values between minimum and maximum go into
    [0, 256], and a pixel above the reduced maximum (below the minimum)
    goes above 256 (below 0). *)
Theorem norm_band_scaled_range (p : pixel) (band : string)
  (minValue maxValue : number) :
  let vmin := eval_number minValue in
  let vmax := eval_number maxValue in
  let scaled x := ((x - vmin) / (vmax - vmin) * 256)%Q in
  (vmin < vmax)%Q ->
  (forall x,
     eval_image (with_bands [(band, x)] p) (norm_body minValue maxValue)
     = Some (with_bands [(band, cast_uint8 (scaled x))] p))
  /\ (scaled vmin == 0)%Q
  /\ (forall x y, (x <= y)%Q -> (scaled x <= scaled y)%Q)
  /\ (forall x, (vmin <= x <= vmax)%Q -> (0 <= scaled x <= 256)%Q)
  /\ (forall x, (vmax < x)%Q -> (256 < scaled x)%Q)
  /\ (forall x, (x < vmin)%Q -> (scaled x < 0)%Q).
Proof.
  intros vmin vmax scaled Hd.
  assert (Hne : ~ (vmax == vmin)%Q).
  { intros E. rewrite E in Hd. exact (Qlt_irrefl _ Hd). }
  pose proof (norm_scaled_max Hne) as Hmax.
  pose proof (norm_scaled_min vmin vmax) as Hmin.
  split; [intros x; apply eval_norm_body |].
  split; [exact Hmin |].
  split; [intros x y Hxy; apply (norm_scaled_le Hd Hxy) |].
  split; [intros x [Hlo Hhi]; split |].
  - rewrite <- Hmin. apply (norm_scaled_le Hd Hlo).
  - rewrite <- Hmax. apply (norm_scaled_le Hd Hhi).
  - split; intros x Hx.
    + rewrite <- Hmax. apply (norm_scaled_lt Hd Hx).
    + rewrite <- Hmin. apply (norm_scaled_lt Hd Hx).
Qed.

(** ** Export tasks of a band list *)

Lemma In_firstn_skipn (A : Type) (n : nat) (l : list A) (x : A) :
  In x (firstn n l) \/ In x (skipn n l) -> In x l.
Proof.
  intros H. rewrite <- (firstn_skipn n l). apply in_or_app. exact H.
Qed.

Lemma chunks_of_incl (A : Type) (bands c : list A) (b : A) :
  In c (chunks_of bands) -> In b c -> In b bands.
Proof.
  unfold chunks_of, leading_chunks. intros Hc Hb.
  apply in_app_or in Hc. destruct Hc as [Hc | [<- | []]].
  - apply in_map_iff in Hc. destruct Hc as (k & <- & _).
    apply (In_firstn_skipn (3 * k)). right.
    apply (In_firstn_skipn 3). left. exact Hb.
  - apply (In_firstn_skipn (List.length bands - 3)). right. exact Hb.
Qed.

Lemma create_export_tasks_needs_three (exists_ : string -> bool)
  (imgcoll : collection) (bands : list string) (folder_name : string)
  (polygon : geometry) (loc_id : pyobj) (lat lon : num)
  (start_date end_date : string) (tasks : list task) :
  create_export_tasks_for_all_bands exists_ imgcoll bands folder_name polygon
    loc_id lat lon start_date end_date = Ok tasks ->
  (3 <= List.length bands)%nat.
Proof.
  destruct bands as [| b0 [| b1 [| b2 r]]]; try discriminate.
  intros _. simpl. lia.
Qed.

Lemma tasks_of_chunks_length (exists_ : string -> bool) (imgcoll : collection)
  (folder_name : string) (polygon : geometry) (loc_id : pyobj)
  (start_date end_date : string) (chunks : list (list string)) :
  (List.length (tasks_of_chunks exists_ imgcoll folder_name polygon loc_id
                  start_date end_date chunks) <= List.length chunks)%nat.
Proof.
  unfold tasks_of_chunks. rewrite length_map. apply filter_length_le.
Qed.

Lemma filter_none (A : Type) (f : A -> bool) (l : list A) :
  (forall a, In a l -> f a = false) -> filter f l = [].
Proof.
  induction l as [| a l IH]; intros H; [reflexivity |].
  cbn [filter]. rewrite (H a) by (left; reflexivity).
  apply IH. intros b Hb. apply H. right. exact Hb.
Qed.

Lemma str_remove_app (c : ascii) (a b : string) :
  str_remove c (a ++ b) = (str_remove c a ++ str_remove c b)%string.
Proof.
  induction a as [| x a IH]; [reflexivity |].
  cbn [String.append str_remove]. destruct (Ascii.eqb x c); [exact IH |].
  cbn [String.append]. rewrite IH. reflexivity.
Qed.

(** X10: every task the call returns exports at scale 500, 12 frames per
    second, in EPSG:4326, over the given polygon and into the given Drive
    folder; its collection is the [uint8] conversion of the selection of
    three bands of the list, and the video file of its description was
    missing when the call looked. *)
Theorem create_export_tasks_task_settings (exists_ : string -> bool)
  (imgcoll : collection) (bands : list string) (folder_name : string)
  (polygon : geometry) (loc_id : pyobj) (lat lon : num)
  (start_date end_date : string) (tasks : list task) :
  create_export_tasks_for_all_bands exists_ imgcoll bands folder_name polygon
    loc_id lat lon start_date end_date = Ok tasks ->
  forall t, In t tasks ->
    task_scale t = 500
    /\ task_framesPerSecond t = 12
    /\ task_crs t = "EPSG:4326"%string
    /\ task_folder t = folder_name
    /\ task_region t = polygon
    /\ (exists b0 b1 b2,
          In b0 bands /\ In b1 bands /\ In b2 bands
          /\ task_collection t
             = CollMap (ImgUint8 ImgArg)
                 (CollSelect [BandName b0; BandName b1; BandName b2] imgcoll)
          /\ video_name [b0; b1; b2] loc_id start_date end_date
             = Ok (task_description t))
    /\ exists_ (os_path_join "/content/drive/MyDrive/"
                  [folder_name; (task_description t ++ ".mp4")%string]) = false.
Proof.
  intros Hrun t Ht.
  pose proof (create_export_tasks_needs_three _ _ _ _ _ _ _ _ _ _ Hrun) as Hlen.
  rewrite create_export_tasks_of_three in Hrun by exact Hlen.
  injection Hrun as <-. unfold tasks_of_chunks in Ht.
  apply in_map_iff in Ht. destruct Ht as (c & <- & Hc).
  apply filter_In in Hc. destruct Hc as [Hc Hmiss].
  repeat (split; [reflexivity |]). split.
  - pose proof (chunks_of_length bands c Hlen Hc) as Hc3.
    destruct c as [| b0 [| b1 [| b2 [| b3 r]]]]; try discriminate Hc3.
    exists b0, b1, b2.
    split; [apply (chunks_of_incl bands _ _ Hc); simpl; auto |].
    split; [apply (chunks_of_incl bands _ _ Hc); simpl; auto |].
    split; [apply (chunks_of_incl bands _ _ Hc); simpl; auto |].
    split; reflexivity.
  - unfold chunk_missing in Hmiss. apply negb_true_iff in Hmiss. exact Hmiss.
Qed.

(** X11: for at least three bands the call returns at most one task per
    group of three bands, [(len(bands) + 2) // 3] tasks; exactly that many
    when no file exists, and none when every file exists. *)
Theorem create_export_tasks_count (exists_ : string -> bool)
  (imgcoll : collection) (bands : list string) (folder_name : string)
  (polygon : geometry) (loc_id : pyobj) (lat lon : num)
  (start_date end_date : string) :
  (3 <= List.length bands)%nat ->
  exists tasks,
    create_export_tasks_for_all_bands exists_ imgcoll bands folder_name polygon
      loc_id lat lon start_date end_date = Ok tasks
    /\ (List.length tasks <= (List.length bands + 2) / 3)%nat
    /\ ((forall path, exists_ path = false) ->
        List.length tasks = ((List.length bands + 2) / 3)%nat)
    /\ ((forall path, exists_ path = true) -> tasks = []).
Proof.
  intros Hlen. eexists. split; [apply create_export_tasks_of_three; exact Hlen |].
  split; [| split].
  - rewrite <- (chunks_of_count bands) by lia. apply tasks_of_chunks_length.
  - intros Hnone. rewrite <- (chunks_of_count bands) by lia.
    unfold tasks_of_chunks. rewrite length_map. f_equal.
    apply forallb_filter_id. apply forallb_forall. intros c _.
    unfold chunk_missing. rewrite Hnone. reflexivity.
  - intros Hall. unfold tasks_of_chunks.
    rewrite filter_none; [reflexivity |].
    intros c _. unfold chunk_missing. rewrite Hall. reflexivity.
Qed.

(** X12: a second call whose disk holds at least the files of the first
    call's disk returns only tasks the first call returned; once the files
    of all the returned tasks are there as well, it returns no task. *)
Theorem create_export_tasks_rerun (exists_ exists_' : string -> bool)
  (imgcoll : collection) (bands : list string) (folder_name : string)
  (polygon : geometry) (loc_id : pyobj) (lat lon : num)
  (start_date end_date : string) (tasks : list task) :
  create_export_tasks_for_all_bands exists_ imgcoll bands folder_name polygon
    loc_id lat lon start_date end_date = Ok tasks ->
  (forall path, exists_ path = true -> exists_' path = true) ->
  exists tasks',
    create_export_tasks_for_all_bands exists_' imgcoll bands folder_name polygon
      loc_id lat lon start_date end_date = Ok tasks'
    /\ (forall t, In t tasks' -> In t tasks)
    /\ ((forall t, In t tasks ->
           exists_' (os_path_join "/content/drive/MyDrive/"
                       [folder_name; (task_description t ++ ".mp4")%string]) = true) ->
        tasks' = []).
Proof.
  intros Hrun Hmore.
  pose proof (create_export_tasks_needs_three _ _ _ _ _ _ _ _ _ _ Hrun) as Hlen.
  rewrite create_export_tasks_of_three in Hrun by exact Hlen.
  injection Hrun as <-.
  eexists. split; [apply create_export_tasks_of_three; exact Hlen |].
  unfold tasks_of_chunks. split.
  - intros t Ht. apply in_map_iff in Ht. destruct Ht as (c & <- & Hc).
    apply filter_In in Hc. destruct Hc as [Hc Hmiss].
    apply in_map. apply filter_In. split; [exact Hc |].
    unfold chunk_missing in *. apply negb_true_iff in Hmiss. apply negb_true_iff.
    destruct (exists_ _) eqn:E; [| reflexivity].
    apply Hmore in E. congruence.
  - intros Hdone.
    rewrite filter_none; [reflexivity |].
    assert (Hall : forall c, In c (chunks_of bands) ->
              chunk_missing exists_' folder_name loc_id start_date end_date c = false).
    { intros c Hc. unfold chunk_missing. apply negb_false_iff.
      destruct (chunk_missing exists_ folder_name loc_id start_date end_date c) eqn:E.
      - apply (Hdone (chunk_task imgcoll folder_name polygon loc_id
                        start_date end_date c)).
        apply in_map. apply filter_In. split; assumption.
      - unfold chunk_missing in E. apply negb_false_iff in E.
        apply Hmore. exact E. }
    exact Hall.
Qed.

(** X13: the video name of a chunk is
    ['bands:' b0 ',' b1 ',' b2 ';loc:' str(loc_id) ';s:' start ';e:' end]
    with the apostrophes and periods taken out of each of the six parts
    and nothing else changed; two chunks whose band names differ only in
    apostrophes and periods therefore get the same name, hence the same
    file. *)
Theorem video_name_cleaned_parts (loc_id : pyobj) (start_date end_date : string)
  (c : list string) :
  List.length c = 3%nat ->
  video_name c loc_id start_date end_date
  = Ok ("bands:" ++ clean_name (nth 0 c "") ++ "," ++ clean_name (nth 1 c "")
          ++ "," ++ clean_name (nth 2 c "") ++ ";loc:" ++ clean_name (py_str loc_id)
          ++ ";s:" ++ clean_name start_date ++ ";e:" ++ clean_name end_date)%string
  /\ forall c',
       map clean_name c' = map clean_name c ->
       video_name c' loc_id start_date end_date
       = video_name c loc_id start_date end_date.
Proof.
  intros Hlen.
  assert (Hname : forall d, List.length d = 3%nat ->
    video_name d loc_id start_date end_date
    = Ok ("bands:" ++ clean_name (nth 0 d "") ++ "," ++ clean_name (nth 1 d "")
            ++ "," ++ clean_name (nth 2 d "") ++ ";loc:" ++ clean_name (py_str loc_id)
            ++ ";s:" ++ clean_name start_date ++ ";e:" ++ clean_name end_date)%string).
  { intros d Hd. rewrite video_name_of_three by exact Hd.
    unfold chunk_video_name, raw_video_name, clean_name.
    rewrite !str_remove_app. reflexivity. }
  split; [apply Hname; exact Hlen |].
  intros c' Hsame.
  assert (Hlen' : List.length c' = 3%nat)
    by (rewrite <- (length_map clean_name), Hsame, length_map; exact Hlen).
  rewrite !Hname by assumption.
  destruct c as [| b0 [| b1 [| b2 [| b3 r]]]]; try discriminate Hlen.
  destruct c' as [| b0' [| b1' [| b2' [| b3' r']]]]; try discriminate Hlen'.
  cbn [map] in Hsame. injection Hsame as E0 E1 E2.
  cbn [nth]. rewrite E0, E1, E2. reflexivity.
Qed.

(** X14: for at least three bands the last chunk overlaps the chunks
    before it by [3 * len(chunks) - len(bands)] bands, at most two: the
    leading chunks put end to end, followed by the last chunk without its
    overlapping bands, are the band list. *)
Theorem band_chunks_overlap (A : Type) (bands : list A) :
  (3 <= List.length bands)%nat ->
  exists leading last,
    band_chunks bands = Ok (leading ++ [last])
    /\ (3 * List.length (leading ++ [last]) - List.length bands <= 2)%nat
    /\ List.concat leading
       ++ skipn (3 * List.length (leading ++ [last]) - List.length bands) last
       = bands.
Proof.
  intros Hlen. exists (leading_chunks bands), (skipn (List.length bands - 3) bands).
  split; [apply band_chunks_nonempty; not_nil Hlen |].
  fold (chunks_of bands). rewrite chunks_of_count by lia.
  unfold leading_chunks. rewrite concat_leading_chunks.
  set (n := List.length bands) in *.
  assert (Hq : ((n + 2) / 3 = (n - 1) / 3 + 1)%nat).
  { replace (n + 2)%nat with ((n - 1) + 1 * 3)%nat by lia.
    rewrite Nat.div_add by lia. reflexivity. }
  pose proof (Nat.div_mod_eq (n - 1) 3) as Hdiv.
  pose proof (Nat.mod_upper_bound (n - 1) 3 ltac:(lia)) as Hmod.
  split; [lia |].
  rewrite skipn_skipn.
  replace (3 * ((n + 2) / 3) - n + (n - 3))%nat with (3 * ((n - 1) / 3))%nat by lia.
  apply firstn_skipn.
Qed.

(** X15: a list of one, two or three bands gives the single chunk that
    is the list itself. *)
Theorem band_chunks_short_list (A : Type) (bands : list A) :
  (1 <= List.length bands <= 3)%nat -> band_chunks bands = Ok [bands].
Proof.
  intros [Hlo Hhi].
  destruct bands as [| b0 [| b1 [| b2 [| b3 r]]]]; simpl in Hlo, Hhi; try lia;
    reflexivity.
Qed.

(** X16: for a folder name that does not start with ['/'] the video file
    a chunk is checked at lies directly in the directory
    '/content/drive/MyDrive/' + folder_name that [get_loc_satellite_tasks]
    creates: its path is that directory, a ['/'] unless the folder name is
    empty or ends with one, and the file name. *)
Theorem video_path_in_created_folder (folder_name : string) (loc_id : pyobj)
  (start_date end_date : string) (c : list string) :
  starts_with_sep folder_name = false ->
  let sat_folder_path := ("/content/drive/MyDrive/" ++ folder_name)%string in
  let vid_name := chunk_video_name loc_id start_date end_date c in
  os_path_join "/content/drive/MyDrive/" [folder_name; (vid_name ++ ".mp4")%string]
  = (sat_folder_path
       ++ (if str_is_empty folder_name || ends_with_sep folder_name then "" else "/")
       ++ vid_name ++ ".mp4")%string.
Proof.
  intros Hrel sat_folder_path vid_name. unfold sat_folder_path, vid_name.
  destruct (chunk_video_name_head loc_id start_date end_date c) as (rest & ->).
  unfold os_path_join. cbn [fold_left]. rewrite Hrel.
  replace (str_is_empty "/content/drive/MyDrive/" || ends_with_sep "/content/drive/MyDrive/")
    with true by reflexivity.
  replace (starts_with_sep (String "b" rest ++ ".mp4")) with false by reflexivity.
  replace (str_is_empty ("/content/drive/MyDrive/" ++ folder_name)) with false
    by reflexivity.
  destruct folder_name as [| x r]; [reflexivity |].
  rewrite ends_with_sep_app by discriminate.
  cbn [str_is_empty orb].
  destruct (ends_with_sep (String x r)); [reflexivity |].
  rewrite str_app_assoc. reflexivity.
Qed.

(** ** Tasks of a location *)

Lemma py_getitem_beyond (A : Type) (l : list A) (i : nat) :
  (List.length l <= i)%nat ->
  py_getitem l (Z.of_nat i) = Raise (IndexError (Z.of_nat i) (List.length l)).
Proof.
  intros Hi. unfold py_getitem, py_len.
  ltb_false (Z.of_nat i) 0.
  replace (Z.of_nat i <? Z.of_nat (List.length l)) with false
    by (symmetry; apply Z.ltb_ge; lia).
  rewrite andb_false_r. reflexivity.
Qed.

Lemma py_getitem_app (A : Type) (l extra : list A) (i : nat) :
  (i < List.length l)%nat ->
  py_getitem (l ++ extra) (Z.of_nat i) = py_getitem l (Z.of_nat i).
Proof.
  intros Hi.
  destruct (nth_error l i) as [x |] eqn:Hx; [| apply nth_error_None in Hx; lia].
  rewrite (py_getitem_nth l i Hx).
  apply py_getitem_nth. rewrite nth_error_app1 by exact Hi. exact Hx.
Qed.

Lemma periods_loop_missing_end_date (fs : FS) (sat : string)
  (bands start_dates end_dates : list string) (loc_id : pyobj)
  (folder_name : string) (polygon : geometry) (latitude longitude : num) :
  (3 <= List.length bands)%nat ->
  forall (n a : nat) (tasks : list task),
    (a <= List.length end_dates < a + n)%nat ->
    (a + n <= List.length start_dates)%nat ->
    periods_loop fs sat bands start_dates end_dates loc_id folder_name polygon
      latitude longitude (map (fun k => 0 + Z.of_nat k) (seq a n)) tasks
    = Raise (IndexError (Z.of_nat (List.length end_dates)) (List.length end_dates)).
Proof.
  intros Hbands. induction n as [| n IH]; intros a tasks Hend Hstart; [lia |].
  cbn [seq map periods_loop]. rewrite Z.add_0_l.
  destruct (nth_error start_dates a) as [sd |] eqn:Hsd;
    [| apply nth_error_None in Hsd; lia].
  rewrite (py_getitem_nth _ _ Hsd). cbn [bind].
  destruct (Nat.eq_dec a (List.length end_dates)) as [-> | Hne].
  - rewrite py_getitem_beyond by lia. reflexivity.
  - destruct (nth_error end_dates a) as [ed |] eqn:Hed;
      [| apply nth_error_None in Hed; lia].
    rewrite (py_getitem_nth _ _ Hed). cbn [bind].
    rewrite create_export_tasks_of_three by exact Hbands. cbn [bind].
    apply IH; lia.
Qed.

Lemma periods_loop_extra_end_dates (fs : FS) (sat : string)
  (bands start_dates end_dates extra : list string) (loc_id : pyobj)
  (folder_name : string) (polygon : geometry) (latitude longitude : num) :
  forall (n a : nat) (tasks : list task),
    (a + n <= List.length end_dates)%nat ->
    periods_loop fs sat bands start_dates (end_dates ++ extra) loc_id folder_name
      polygon latitude longitude (map (fun k => 0 + Z.of_nat k) (seq a n)) tasks
    = periods_loop fs sat bands start_dates end_dates loc_id folder_name
        polygon latitude longitude (map (fun k => 0 + Z.of_nat k) (seq a n)) tasks.
Proof.
  induction n as [| n IH]; intros a tasks Hrange; [reflexivity |].
  cbn [seq map periods_loop]. rewrite Z.add_0_l.
  rewrite py_getitem_app by lia.
  destruct (py_getitem start_dates (Z.of_nat a)) as [sd | e]; [| reflexivity].
  cbn [bind].
  destruct (py_getitem end_dates (Z.of_nat a)) as [ed | e]; [| reflexivity].
  cbn [bind].
  destruct (create_export_tasks_for_all_bands _ _ _ _ _ _ _ _ _ _) as [new | e];
    [| reflexivity].
  cbn [bind]. apply IH. lia.
Qed.

(** X17: with no start date the call still builds the polygon and makes
    sure of the folder, then returns an empty task list, whatever the end
    dates and even for fewer than three bands. *)
Theorem get_loc_satellite_tasks_no_period (fs fs' : FS) (sat : string)
  (bands end_dates : list string) (loc_id : pyobj) (folder_name : string)
  (latitude longitude : num) (polygon_area : option num) (polygon : geometry) :
  create_circular_bb_polygon (latitude, longitude)
    (Some (match polygon_area with Some a => a | None => num_of_Z 100 end))
  = Ok polygon ->
  (if negb (path_exists fs ("/content/drive/MyDrive/" ++ folder_name))
   then os_mkdir fs ("/content/drive/MyDrive/" ++ folder_name)%string
   else Ok fs) = Ok fs' ->
  get_loc_satellite_tasks fs sat bands [] end_dates loc_id folder_name
    latitude longitude polygon_area
  = Ok (fs', []).
Proof.
  intros Hpoly Hdir. unfold get_loc_satellite_tasks.
  rewrite Hpoly. cbn [bind]. rewrite Hdir. reflexivity.
Qed.

(** X18: when there are fewer end dates than start dates (and at least
    three bands) the call raises the index error of [end_dates[i]] at the
    first period without an end date; the tasks built for the periods
    before it are not returned. *)
Theorem get_loc_satellite_tasks_missing_end_date (fs fs' : FS) (sat : string)
  (bands start_dates end_dates : list string) (loc_id : pyobj)
  (folder_name : string) (latitude longitude : num) (polygon_area : option num)
  (polygon : geometry) :
  create_circular_bb_polygon (latitude, longitude)
    (Some (match polygon_area with Some a => a | None => num_of_Z 100 end))
  = Ok polygon ->
  (if negb (path_exists fs ("/content/drive/MyDrive/" ++ folder_name))
   then os_mkdir fs ("/content/drive/MyDrive/" ++ folder_name)%string
   else Ok fs) = Ok fs' ->
  (3 <= List.length bands)%nat ->
  (List.length end_dates < List.length start_dates)%nat ->
  get_loc_satellite_tasks fs sat bands start_dates end_dates loc_id folder_name
    latitude longitude polygon_area
  = Raise (IndexError (py_len end_dates) (List.length end_dates)).
Proof.
  intros Hpoly Hdir Hbands Hdates. unfold get_loc_satellite_tasks.
  rewrite Hpoly. cbn [bind]. rewrite Hdir. cbn [bind].
  rewrite py_range_step1. unfold py_len. rewrite Z.sub_0_r, Nat2Z.id.
  rewrite periods_loop_missing_end_date by (try assumption; lia).
  reflexivity.
Qed.

(** X19: end dates beyond the number of start dates are never read: with
    an end date for every start date, appending further end dates does not
    change the result of the call. *)
Theorem get_loc_satellite_tasks_extra_end_dates (fs : FS) (sat : string)
  (bands start_dates end_dates extra : list string) (loc_id : pyobj)
  (folder_name : string) (latitude longitude : num) (polygon_area : option num) :
  (List.length start_dates <= List.length end_dates)%nat ->
  get_loc_satellite_tasks fs sat bands start_dates (end_dates ++ extra) loc_id
    folder_name latitude longitude polygon_area
  = get_loc_satellite_tasks fs sat bands start_dates end_dates loc_id
      folder_name latitude longitude polygon_area.
Proof.
  intros Hdates. unfold get_loc_satellite_tasks.
  destruct (create_circular_bb_polygon _ _) as [polygon | e]; [| reflexivity].
  cbn [bind].
  destruct (if negb _ then _ else _) as [fs1 | e]; [| reflexivity].
  cbn [bind].
  rewrite py_range_step1. unfold py_len. rewrite Z.sub_0_r, Nat2Z.id.
  rewrite periods_loop_extra_end_dates by lia. reflexivity.
Qed.

(** X20: when the buffer comes back empty (as for an area that is not
    positive) [create_circular_bb_polygon] raises the index error of
    [coordinates[0]], and [get_loc_satellite_tasks] raises it whatever the
    disk, the bands and the dates are. *)
Theorem create_circular_bb_polygon_empty_buffer (fs : FS) (sat : string)
  (bands start_dates end_dates : list string) (loc_id : pyobj)
  (folder_name : string) (latitude longitude a : num) :
  shapely_buffer
    (pyproj_transform "+proj=longlat +datum=WGS84 +no_defs"
       ("+proj=aeqd +R=6371000 +units=m +lat_0=" ++ num_fmt latitude
          ++ " +lon_0=" ++ num_fmt longitude)
       (longitude, latitude))
    (num_mul a (num_of_Z 1000)) = [] ->
  create_circular_bb_polygon (latitude, longitude) (Some a) = Raise (IndexError 0 0)
  /\ get_loc_satellite_tasks fs sat bands start_dates end_dates loc_id folder_name
       latitude longitude (Some a)
     = Raise (IndexError 0 0).
Proof.
  intros Hbuf.
  assert (Hpoly : create_circular_bb_polygon (latitude, longitude) (Some a)
                  = Raise (IndexError 0 0)).
  { unfold create_circular_bb_polygon. cbn [fst snd].
    unfold local_azimuthal_projection, wgs84. cbn [fst snd].
    rewrite Hbuf. reflexivity. }
  split; [exact Hpoly |].
  unfold get_loc_satellite_tasks. rewrite Hpoly. reflexivity.
Qed.

(** X21: once the polygon is built, the disk the call leaves behind is
    the disk it found when the folder was there, and the disk [os.mkdir]
    made otherwise; when [os.mkdir] fails its error is the result of the
    call, and no period is processed. *)
Theorem get_loc_satellite_tasks_folder (fs : FS) (sat : string)
  (bands start_dates end_dates : list string) (loc_id : pyobj)
  (folder_name : string) (latitude longitude : num) (polygon_area : option num)
  (polygon : geometry) :
  create_circular_bb_polygon (latitude, longitude)
    (Some (match polygon_area with Some a => a | None => num_of_Z 100 end))
  = Ok polygon ->
  let sat_folder_path := ("/content/drive/MyDrive/" ++ folder_name)%string in
  let result :=
    get_loc_satellite_tasks fs sat bands start_dates end_dates loc_id folder_name
      latitude longitude polygon_area in
  (path_exists fs sat_folder_path = true ->
   forall fs2 tasks, result = Ok (fs2, tasks) -> fs2 = fs)
  /\ (path_exists fs sat_folder_path = false ->
      forall fs1, os_mkdir fs sat_folder_path = Ok fs1 ->
      forall fs2 tasks, result = Ok (fs2, tasks) -> fs2 = fs1)
  /\ (path_exists fs sat_folder_path = false ->
      forall e, os_mkdir fs sat_folder_path = Raise e -> result = Raise e).
Proof.
  intros Hpoly sat_folder_path result. unfold result, get_loc_satellite_tasks.
  rewrite Hpoly. cbn [bind]. fold sat_folder_path.
  split; [| split].
  - intros Hthere fs2 tasks. rewrite Hthere. cbn [negb bind].
    destruct (periods_loop _ _ _ _ _ _ _ _ _ _ _ _) as [ts | e]; cbn [bind];
      [| discriminate].
    intros H. injection H as <- _. reflexivity.
  - intros Hmissing fs1 Hmk fs2 tasks. rewrite Hmissing. cbn [negb].
    rewrite Hmk. cbn [bind].
    destruct (periods_loop _ _ _ _ _ _ _ _ _ _ _ _) as [ts | e]; cbn [bind];
      [| discriminate].
    intros H. injection H as <- _. reflexivity.
  - intros Hmissing e Hmk. rewrite Hmissing. cbn [negb]. rewrite Hmk. reflexivity.
Qed.




(** ** A period's collection at a pixel *)

Lemma Forall2_same (A : Type) (R : A -> A -> Prop) (l : list A) :
  (forall a, R a a) -> Forall2 R l l.
Proof. intros H. induction l; constructor; auto. Qed.

Lemma Forall2_map_right (A B : Type) (R : A -> B -> Prop) (f : A -> B) (l : list A) :
  (forall a, R a (f a)) -> Forall2 R l (map f l).
Proof. intros H. induction l; cbn [map]; constructor; auto. Qed.

Lemma Forall2_of_map_left (A B C : Type) (R : B -> C -> Prop) (f : A -> B)
  (l : list A) (l' : list C) :
  Forall2 R (map f l) l' -> Forall2 (fun a c => R (f a) c) l l'.
Proof.
  revert l'. induction l as [| a l IH]; intros l' H; inversion H; subst;
    constructor; auto.
Qed.

Lemma Forall2_impl_in (A B : Type) (R R' : A -> B -> Prop) (l : list A) (l' : list B) :
  (forall a b, In a l -> R a b -> R' a b) -> Forall2 R l l' -> Forall2 R' l l'.
Proof.
  intros H F. induction F as [| a b l l' Hab F IH]; constructor.
  - apply H; [left; reflexivity | exact Hab].
  - apply IH. intros a' b' Ha'. apply H. right. exact Ha'.
Qed.

Lemma lookup_normalize_pixel (band other : string) (vmin vmax : Q) (p : pixel) :
  lookup_band other (px_bands (normalize_pixel band vmin vmax p))
  = if String.eqb other band
    then Some (cast_uint8 (norm_scaled (band_value band p) vmin vmax))
    else lookup_band other (px_bands p).
Proof.
  unfold normalize_pixel, with_bands. cbn [px_bands].
  destruct (String.eqb other band) eqn:E.
  - apply String.eqb_eq in E. subst other. apply lookup_set_band_same.
  - apply String.eqb_neq in E. apply lookup_set_band_other. exact E.
Qed.

Lemma lookup_map_values (f : Q -> Q) (name : string) (bs : list (string * Q)) :
  lookup_band name (map (fun b => (fst b, f (snd b))) bs)
  = option_map f (lookup_band name bs).
Proof.
  induction bs as [| [n v] r IH]; [reflexivity |].
  cbn [map lookup_band fst snd]. destruct (String.eqb n name); [reflexivity | exact IH].
Qed.

Lemma eval_norm_loop (polygon : geometry) (bands : list string) :
  forall (c : collection) (l : list pixel),
    eval_collection c = Some l ->
    (forall p b, In p l -> In b bands -> lookup_band b (px_bands p) <> None) ->
    exists l',
      eval_collection (fold_left (fun c band => norm_band c band polygon) bands c)
      = Some l'
      /\ Forall2 (normalised_from bands) l l'.
Proof.
  induction bands as [| b bs IH]; intros c l Hc Hband.
  - exists l. split; [exact Hc |]. apply Forall2_same. intros p.
    repeat split; auto. intros x [].
  - cbn [fold_left].
    pose proof (@eval_norm_band c b polygon l Hc
                  (fun p Hp => Hband p b Hp (or_introl eq_refl))) as Hstep.
    destruct (IH _ _ Hstep) as (l' & Hrun & Hrel).
    { intros p1 b' Hp1 Hb'. apply in_map_iff in Hp1. destruct Hp1 as (p & <- & Hp).
      rewrite lookup_normalize_pixel.
      destruct (String.eqb b' b); [discriminate |].
      apply Hband; [exact Hp | right; exact Hb']. }
    exists l'. split; [exact Hrun |].
    apply Forall2_of_map_left in Hrel. revert Hrel. apply Forall2_impl_in.
    intros p p' Hp (Hvalid & Hother & Hcast & Hnames).
    split; [exact Hvalid |]. split; [| split].
    + intros other Hnot. rewrite Hother by (intros Hin; apply Hnot; right; exact Hin).
      rewrite lookup_normalize_pixel.
      destruct (String.eqb other b) eqn:E; [| reflexivity].
      apply String.eqb_eq in E. subst other. exfalso. apply Hnot. left. reflexivity.
    + intros b' [<- | Hb'].
      * destruct (in_dec string_dec b bs) as [Hin | Hnot]; [apply Hcast; exact Hin |].
        rewrite Hother by exact Hnot. rewrite lookup_normalize_pixel, String.eqb_refl.
        eexists. reflexivity.
      * apply Hcast. exact Hb'.
    + intros b'. rewrite <- Hnames. rewrite lookup_normalize_pixel.
      destruct (String.eqb b' b) eqn:E; [| reflexivity].
      apply String.eqb_eq in E. subst b'. split; [discriminate |].
      intros _. apply (Hband p b); [exact Hp | left; reflexivity].
Qed.

Lemma Forall2_to_map_right (A B C : Type) (R : A -> C -> Prop) (f : B -> C)
  (l : list A) (l' : list B) :
  Forall2 (fun a b => R a (f b)) l l' -> Forall2 R l (map f l').
Proof. intros F. induction F; cbn [map]; constructor; auto. Qed.

Lemma eval_uint8_map (c : collection) (l : list pixel) :
  eval_collection c = Some l ->
  eval_collection (CollMap (ImgUint8 ImgArg) c) = Some (map (map_values cast_uint8) l).
Proof.
  intros Hc. cbn [eval_collection]. rewrite Hc.
  apply option_all_map. intros p _. reflexivity.
Qed.

(** X23: the loop [for band in bands: imgcoll = norm_band(imgcoll, band,
    polygon)] keeps, at a pixel, the images, their order and their
    validity; it leaves every band that is not listed as it was, makes
    every listed band a [uint8] value, and neither adds nor removes a
    band (every image having the listed bands). *)
Theorem norm_band_loop_invariants (polygon : geometry) (bands : list string)
  (c : collection) (l : list pixel) :
  eval_collection c = Some l ->
  (forall p b, In p l -> In b bands -> lookup_band b (px_bands p) <> None) ->
  exists l',
    eval_collection (fold_left (fun c band => norm_band c band polygon) bands c)
    = Some l'
    /\ List.length l' = List.length l
    /\ Forall2
         (fun p p' =>
            px_valid p' = px_valid p
            /\ (forall other, ~ In other bands ->
                  lookup_band other (px_bands p') = lookup_band other (px_bands p))
            /\ (forall b, In b bands ->
                  exists q, lookup_band b (px_bands p') = Some (cast_uint8 q))
            /\ (forall b, lookup_band b (px_bands p) <> None <->
                          lookup_band b (px_bands p') <> None))
         l l'.
Proof.
  intros Hc Hband.
  destruct (eval_norm_loop polygon bands c Hc Hband) as (l' & Hrun & Hrel).
  exists l'. split; [exact Hrun |].
  split; [symmetry; apply (Forall2_length Hrel) |]. exact Hrel.
Qed.

(** X24: the collection of a period, read at a pixel from the images the
    catalogue gives for the dates and the polygon: the images keep their
    number, order and band names; an image is valid where it was valid,
    the pixel lies in the polygon and, for 'MODIS/061/MOD09A1' only, the
    QA bits read by [maskCloud] are zero; and every band value, listed
    for normalisation or not, is a [uint8] value. *)
Theorem prepare_collection_at_pixel (sat : string) (bands : list string)
  (polygon : geometry) (start_date end_date : string) :
  let l :=
    source (FilterBounds (FilterDate (ImageCollection sat) start_date end_date)
              polygon) in
  (forall p b, In p l -> In b bands -> lookup_band b (px_bands p) <> None) ->
  (sat = "MODIS/061/MOD09A1"%string ->
   forall p, In p l -> exists qa : Z,
       lookup_band "StateQA" (px_bands p) = Some (inject_Z qa)) ->
  exists l',
    eval_collection (prepare_collection sat bands polygon start_date end_date)
    = Some l'
    /\ List.length l' = List.length l
    /\ Forall2
         (fun p p' =>
            px_valid p'
            = px_valid p
              && (if String.eqb sat "MODIS/061/MOD09A1" then cloud_bits p =? 0 else true)
              && inside polygon
            /\ (forall b, lookup_band b (px_bands p) <> None <->
                          lookup_band b (px_bands p') <> None)
            /\ (forall b v, lookup_band b (px_bands p') = Some v ->
                  exists q, v = cast_uint8 q))
         l l'.
Proof.
  intros l Hband Hqa. unfold prepare_collection.
  set (base := FilterBounds (FilterDate (ImageCollection sat) start_date end_date)
                 polygon) in *.
  set (M := fun p => {| px_bands := px_bands p;
                        px_valid := px_valid p
                                    && (if String.eqb sat modis
                                        then cloud_bits p =? 0 else true)
                                    && inside polygon |}).
  assert (Hbase : eval_collection base = Some l) by reflexivity.
  assert (Hmasked :
    eval_collection
      (CollMap (polygon_mask_body polygon)
         (if String.eqb sat modis then CollMap (maskCloud ImgArg) base else base))
    = Some (map M l)).
  { unfold M. destruct (String.eqb sat modis) eqn:E.
    - apply String.eqb_eq in E.
      rewrite (eval_polygon_mask_map _ polygon
                 (eval_cloud_mask_map _ Hbase (Hqa E))).
      rewrite map_map. reflexivity.
    - rewrite (eval_polygon_mask_map _ polygon Hbase).
      f_equal. apply map_ext. intros p. rewrite andb_true_r. reflexivity. }
  destruct (eval_norm_loop polygon bands _ Hmasked) as (l2 & Hrun & Hrel).
  { intros p1 b Hp1 Hb. apply in_map_iff in Hp1. destruct Hp1 as (p & <- & Hp).
    unfold M. cbn [px_bands]. apply Hband; assumption. }
  exists (map (map_values cast_uint8) l2).
  split; [apply eval_uint8_map; exact Hrun |].
  split; [rewrite length_map, <- (Forall2_length Hrel), length_map; reflexivity |].
  apply Forall2_to_map_right. apply Forall2_of_map_left in Hrel.
  revert Hrel. apply Forall2_impl.
  intros p p2 (Hvalid & _ & _ & Hnames).
  unfold M, map_values in *. cbn [px_bands px_valid] in *.
  split; [exact Hvalid |]. split.
  - intros b. rewrite (Hnames b), lookup_map_values.
    destruct (lookup_band b (px_bands p2)); cbn [option_map]; split; congruence.
  - intros b v. rewrite lookup_map_values.
    destruct (lookup_band b (px_bands p2)) as [w |]; cbn [option_map]; [| discriminate].
    intros H. injection H as <-. eexists. reflexivity.
Qed.

(** ** Names of a year's videos *)

Lemma string_of_uint_clean (d : Decimal.uint) :
  clean_name (NilEmpty.string_of_uint d) = NilEmpty.string_of_uint d.
Proof.
  unfold clean_name.
  induction d as [| d IH | d IH | d IH | d IH | d IH | d IH | d IH | d IH | d IH | d IH];
    [reflexivity | ..];
    cbn [NilEmpty.string_of_uint str_remove Ascii.eqb Bool.eqb]; rewrite IH;
    reflexivity.
Qed.

Lemma py_str_int_clean (y : Z) : clean_name (py_str_int y) = py_str_int y.
Proof.
  unfold py_str_int, NilZero.string_of_int, NilZero.string_of_uint.
  destruct (Z.to_int y) as [d | d].
  - destruct d; [reflexivity | ..]; apply string_of_uint_clean.
  - destruct d; [reflexivity | ..];
      unfold clean_name; cbn [str_remove Ascii.eqb Bool.eqb];
      f_equal; apply string_of_uint_clean.
Qed.

Lemma chunk_video_name_parts (loc_id : pyobj) (start_date end_date : string)
  (c : list string) :
  chunk_video_name loc_id start_date end_date c
  = ("bands:" ++ clean_name (nth 0 c "") ++ "," ++ clean_name (nth 1 c "")
       ++ "," ++ clean_name (nth 2 c "") ++ ";loc:" ++ clean_name (py_str loc_id)
       ++ ";s:" ++ clean_name start_date ++ ";e:" ++ clean_name end_date)%string.
Proof.
  unfold chunk_video_name, raw_video_name, clean_name.
  rewrite !str_remove_app. reflexivity.
Qed.

(** X25: the tasks [get_loc_tasks] returns for a year are at most one per
    group of three bands, and their names carry the year: each is
    ['bands:' b0 ',' b1 ',' b2 ';loc:' loc ';s:' Y '-04-01;e:' Y '-09-30']
    with [Y = str(int(year))] unchanged by the cleaning and the band names
    and [str(loc_id)] without their apostrophes and periods. *)
Theorem get_loc_tasks_names_carry_year (fs fs' : FS) (latitude longitude : num)
  (year loc_id : pyobj) (sat folder_name : string) (bands : list string)
  (polygon_area : option num) (y : Z) (polygon : geometry) :
  py_int year = Some y ->
  create_circular_bb_polygon (latitude, longitude)
    (Some (match polygon_area with Some a => a | None => num_of_Z 50 end))
  = Ok polygon ->
  (if negb (path_exists fs ("/content/drive/MyDrive/" ++ folder_name))
   then os_mkdir fs ("/content/drive/MyDrive/" ++ folder_name)%string
   else Ok fs) = Ok fs' ->
  (3 <= List.length bands)%nat ->
  exists tasks,
    get_loc_tasks fs latitude longitude year loc_id sat folder_name bands polygon_area
    = Ok (fs', tasks)
    /\ (List.length tasks <= (List.length bands + 2) / 3)%nat
    /\ forall t, In t tasks ->
         exists b0 b1 b2,
           In b0 bands /\ In b1 bands /\ In b2 bands
           /\ task_description t
              = ("bands:" ++ clean_name b0 ++ "," ++ clean_name b1 ++ ","
                   ++ clean_name b2 ++ ";loc:" ++ clean_name (py_str loc_id)
                   ++ ";s:" ++ py_str_int y ++ "-04-01"
                   ++ ";e:" ++ py_str_int y ++ "-09-30")%string.
Proof.
  intros Hint Hpoly Hdir Hbands. eexists. split.
  - unfold get_loc_tasks, py_int_call. rewrite Hint. cbn [bind].
    erewrite get_loc_satellite_tasks_ok;
      [| exact Hpoly | exact Hdir | exact Hbands | simpl; lia].
    cbn [combine flat_map]. rewrite app_nil_r. reflexivity.
  - unfold period_tasks. cbn [fst snd]. split.
    + rewrite <- (chunks_of_count bands) by lia. apply tasks_of_chunks_length.
    + intros t Ht. unfold tasks_of_chunks in Ht.
      apply in_map_iff in Ht. destruct Ht as (c & <- & Hc).
      apply filter_In in Hc. destruct Hc as [Hc _].
      pose proof (chunks_of_length bands c Hbands Hc) as Hc3.
      destruct c as [| b0 [| b1 [| b2 [| b3 r]]]]; try discriminate Hc3.
      exists b0, b1, b2.
      split; [apply (chunks_of_incl bands _ _ Hc); simpl; auto |].
      split; [apply (chunks_of_incl bands _ _ Hc); simpl; auto |].
      split; [apply (chunks_of_incl bands _ _ Hc); simpl; auto |].
      unfold chunk_task, create_export_vid_bands_task. cbn [task_description].
      rewrite chunk_video_name_parts. cbn [nth].
      assert (Hdate : forall tail, clean_name (py_str_int y ++ tail)
                                   = (py_str_int y ++ clean_name tail)%string).
      { intros tail. unfold clean_name. rewrite !str_remove_app.
        fold (clean_name (py_str_int y)). rewrite py_str_int_clean. reflexivity. }
      rewrite !Hdate, !str_app_assoc. reflexivity.
Qed.

End Utils.

(* ================================================================== *)
(** * The properties at concrete inputs *)
(* ================================================================== *)

(** [getQABits(QA, 8, 13, ...)] as [maskCloud] calls it: the pattern is
    7936, bits 8 to 12; bit 13 is missing from it. *)
Lemma getQABits_pattern_8_13 :
  0 <= 8 <= 13
  /\ qa_pattern 8 13 = 7936
  /\ Z.testbit (qa_pattern 8 13) 13 = false
  /\ qa_pattern_inclusive 8 13 = 16128.
Proof.
  split; [lia |].
  pose proof (@getQABits_pattern_excludes_end_bit Z (ImgArg Z) 8 13
                "internal_quality_flag" ltac:(lia)) as (_ & _ & Hend & Hincl).
  split; [reflexivity |]. split; [exact Hend |].
  rewrite Hincl. reflexivity.
Defined.

Lemma band_chunks_of_seven :
  (3 <= List.length [1; 2; 3; 4; 5; 6; 7])%nat
  /\ band_chunks [1; 2; 3; 4; 5; 6; 7] = Ok [[1; 2; 3]; [4; 5; 6]; [5; 6; 7]].
Proof.
  split; [simpl; lia |].
  destruct (band_chunks_three_and_cover [1; 2; 3; 4; 5; 6; 7] ltac:(simpl; lia))
    as (chunks & Hrun & Hchunks & _).
  rewrite Hrun, Hchunks. reflexivity.
Defined.

Lemma create_export_tasks_two_bands :
  List.length ["B1"; "B2"]%string = 2%nat
  /\ create_export_tasks_for_all_bands py_str_int (disk_has [])
       (ImageCollection Z "S") ["B1"; "B2"]%string "modis" (GeomPolygon square_ring)
       7 30 31 "2019-04-01" "2019-09-30"
     = Raise (IndexError 2 2).
Proof.
  split; [reflexivity |].
  destruct (create_export_tasks_index_errors py_str_int (disk_has [])
              (ImageCollection Z "S") ["B1"; "B2"]%string "modis"
              (GeomPolygon square_ring) 7 30 31 "2019-04-01" "2019-09-30")
    as (_ & _ & Htwo & _).
  destruct (Htwo eq_refl) as (_ & _ & Hrun). exact Hrun.
Defined.

Lemma create_export_tasks_one_file_present :
  let disk :=
    ["/content/drive/MyDrive/modis/bands:B1,B2,B3;loc:7;s:2019-04-01;e:2019-09-30.mp4"%string] in
  (3 <= List.length ["B1"; "B2"; "B3"; "B4"]%string)%nat
  /\ exists t,
       create_export_tasks_for_all_bands py_str_int (disk_has disk)
         (ImageCollection Z "S") ["B1"; "B2"; "B3"; "B4"]%string "modis"
         (GeomPolygon square_ring) 7 30 31 "2019-04-01" "2019-09-30"
       = Ok [t]
       /\ task_description t = "bands:B2,B3,B4;loc:7;s:2019-04-01;e:2019-09-30"%string.
Proof.
  intros disk. split; [simpl; lia |].
  destruct (create_export_tasks_skip_existing py_str_int (disk_has disk)
              (ImageCollection Z "S") ["B1"; "B2"; "B3"; "B4"]%string "modis"
              (GeomPolygon square_ring) 7 30 31 "2019-04-01" "2019-09-30"
              ltac:(simpl; lia))
    as (chunks & tasks & Hchunks & Hrun & Htasks & _).
  vm_compute in Hchunks. injection Hchunks as <-.
  rewrite Hrun, Htasks. eexists. split; reflexivity.
Defined.

(** C1 at a folder name that starts with ['/']: the file
    '/content/drive/MyDrive/<folder_name>/<vid_name>.mp4' exists, and the
    task is created all the same, because [os.path.join] dropped the
    '/content/drive/MyDrive/' part and looked at '/tmp/<vid_name>.mp4'. *)
Lemma create_export_tasks_absolute_folder_counterexample :
  let vid_name := "bands:B1,B2,B3;loc:7;s:2019-04-01;e:2019-09-30"%string in
  let disk := [("/content/drive/MyDrive/" ++ "/tmp" ++ "/" ++ vid_name ++ ".mp4")%string] in
  disk_has disk (spelled_video_path "/tmp" vid_name) = true
  /\ video_path "/tmp" vid_name = ("/tmp/" ++ vid_name ++ ".mp4")%string
  /\ exists t,
       create_export_tasks_for_all_bands py_str_int (disk_has disk)
         (ImageCollection Z "S") ["B1"; "B2"; "B3"]%string "/tmp"
         (GeomPolygon square_ring) 7 30 31 "2019-04-01" "2019-09-30"
       = Ok [t]
       /\ task_description t = vid_name.
Proof.
  intros vid_name disk. split; [reflexivity |]. split; [reflexivity |].
  eexists. split; reflexivity.
Qed.

Lemma maskCloud_cloud_flag_pixel :
  let p := {| px_bands := [("sur_refl_b01"%string, 1200%Q); ("StateQA"%string, inject_Z 1024)];
              px_valid := true |} in
  lookup_band "StateQA" (px_bands p) = Some (inject_Z 1024)
  /\ eval_image (fun _ : geometry Z => true) (fun _ => 0%Q) clamp_uint8 p (maskCloud (ImgArg Z))
     = Some {| px_bands := px_bands p; px_valid := false |}.
Proof.
  intros p. split; [reflexivity |].
  pose proof (@maskCloud_masks_flagged_pixels Z (fun _ => true) (fun _ => 0%Q)
                clamp_uint8 (ImgArg Z) p 1024 eq_refl) as H.
  cbv zeta in H. destruct H as (_ & _ & p' & Hrun & Hbands & Hvalid & _).
  rewrite Hrun. destruct p' as [bs v]. cbn [px_bands px_valid] in *.
  rewrite Hbands, Hvalid. reflexivity.
Defined.

(** A pixel whose only raised QA bit is bit 13 passes [maskCloud]. *)
Lemma maskCloud_bit_13_pixel :
  let p := {| px_bands := [("StateQA"%string, inject_Z 8192)]; px_valid := true |} in
  Z.testbit 8192 13 = true
  /\ eval_image (fun _ : geometry Z => true) (fun _ => 0%Q) clamp_uint8 p (maskCloud (ImgArg Z))
     = Some p.
Proof. split; reflexivity. Qed.

Lemma create_circular_bb_polygon_square :
  let aeqd := "+proj=aeqd +R=6371000 +units=m +lat_0=30 +lon_0=31"%string in
  let longlat := "+proj=longlat +datum=WGS84 +no_defs"%string in
  square_buffer (shift_transform longlat aeqd (31, 30)) (100 * 1000)
  = [(-100969, -101970); (99031, -101970); (99031, 98030); (-100969, 98030);
     (-100969, -101970)] :: []
  /\ create_circular_bb_polygon (fun z => z) Z.mul py_str_int shift_transform
       square_buffer (30, 31) (Some 100)
     = Ok (GeomPolygon square_ring).
Proof.
  intros aeqd longlat. split; [reflexivity |].
  pose proof (@create_circular_bb_polygon_exterior_ring Z (fun z => z) Z.mul
                py_str_int shift_transform square_buffer 30 31 100 _ _ eq_refl) as H.
  cbv zeta in H. rewrite H. reflexivity.
Defined.

Lemma start_multiple_tasks_two_of_three :
  0 <= 2
  /\ start_multiple_tasks [11; 12; 13] 2 []
     = (([11; 12], [13]), [TaskStart 11; Sleep Z 500; TaskStart 12; Sleep Z 500]).
Proof.
  split; [lia |].
  pose proof (@start_multiple_tasks_batches Z [11; 12; 13] 2 [] ltac:(lia)) as H.
  cbv zeta in H. destruct H as (effects & Hrun & _ & _ & _ & Heffects & _).
  rewrite Hrun, Heffects. reflexivity.
Defined.

(** C6 as worded fails when a task object occurs twice: the task of the
    second returned list has been started. *)
Lemma start_multiple_tasks_repeated_task_counterexample :
  let r := start_multiple_tasks [7; 7] 1 [] in
  0 <= 1
  /\ snd (fst r) = [7]
  /\ In 7 (snd (fst r))
  /\ In 7 (started (snd r)).
Proof.
  cbv zeta. split; [lia |]. split; [reflexivity |].
  split; left; reflexivity.
Qed.


Lemma norm_band_two_images :
  let c := ImageCollection Z "S" in
  let polygon := GeomPolygon square_ring in
  let images :=
    [ {| px_bands := [("B1"%string, 10%Q); ("B2"%string, 7%Q)]; px_valid := true |};
      {| px_bands := [("B1"%string, 30%Q); ("B2"%string, 9%Q)]; px_valid := true |} ] in
  let reduce := fun n : number Z =>
    match n with
    | NumReduceRegion _ ReducerMin _ _ _ _ => 10%Q
    | NumReduceRegion _ ReducerMax _ _ _ _ => 30%Q
    | NumSubtract _ _ => 0%Q
    end in
  let run := eval_collection (fun _ => true) reduce clamp_uint8 (fun _ => images) in
  run c = Some images
  /\ (forall p, In p images -> lookup_band "B1" (px_bands p) <> None)
  /\ ~ (30 == 10)%Q
  /\ ((30 - 10) / (30 - 10) * 256 == 256)%Q
  /\ run (norm_band c "B1" polygon)
     = Some
         [ {| px_bands := [("B1"%string, 0%Q); ("B2"%string, 7%Q)]; px_valid := true |};
           {| px_bands := [("B1"%string, 255%Q); ("B2"%string, 9%Q)]; px_valid := true |} ].
Proof.
  intros c polygon images reduce run.
  assert (Hband : forall p, In p images -> lookup_band "B1" (px_bands p) <> None).
  { intros p [<- | [<- | []]]; discriminate. }
  assert (Hne : ~ (30 == 10)%Q) by discriminate.
  split; [reflexivity |]. split; [exact Hband |]. split; [exact Hne |].
  pose proof (@norm_band_rescales_band Z (fun _ => true) reduce clamp_uint8
                (fun _ => images) c "B1" polygon images eq_refl Hband) as H.
  cbv zeta in H. destruct H as (_ & _ & Hmax & _).
  split; [exact (proj1 (Hmax Hne)) | reflexivity].
Defined.

(** C9 as worded fails for a band whose maximum equals its minimum: the
    pixel equal to the maximum is scaled to 0, not to 256. *)
Lemma norm_band_constant_band_counterexample :
  let colIm := CollSelect [BandName "B1"] (ImageCollection Z "S") in
  let polygon := GeomPolygon square_ring in
  let minValue :=
    NumReduceRegion (CollMin colIm) ReducerMin polygon 100000000000 500 "B1" in
  let maxValue :=
    NumReduceRegion (CollMax colIm) ReducerMax polygon 100000000000 500 "B1" in
  let reduce := fun _ : number Z => 5%Q in
  let p := {| px_bands := [("B1"%string, 5%Q)]; px_valid := true |} in
  norm_body minValue maxValue
  = ImgUint8
      (ImgMultiply
         (ImgDivide (ImgSubtract (ImgArg Z) minValue) (NumSubtract maxValue minValue))
         256)
  /\ band_value "B1" p = reduce maxValue
  /\ exists v,
       eval_image (fun _ => true) reduce clamp_uint8 p
         (ImgMultiply
            (ImgDivide (ImgSubtract (ImgArg Z) minValue) (NumSubtract maxValue minValue))
            256)
       = Some {| px_bands := [("B1"%string, v)]; px_valid := true |}
       /\ (v == 0)%Q
       /\ ~ (v == 256)%Q.
Proof.
  cbv zeta. split; [reflexivity |]. split; [reflexivity |].
  eexists. split; [reflexivity |]. split; [reflexivity | discriminate].
Qed.

Lemma get_loc_tasks_2019 :
  Some 2019 = Some 2019
  /\ get_loc_tasks py_str_int (@Some Z) (fun z => z) Z.mul py_str_int shift_transform
       square_buffer disk_has disk_mkdir [] 30 31 2019 7 "MODIS/061/MOD09A1" "modis"
       ["B1"; "B2"; "B3"]%string None
     = get_loc_satellite_tasks py_str_int (fun z => z) Z.mul py_str_int
         shift_transform square_buffer disk_has disk_mkdir [] "MODIS/061/MOD09A1"
         ["B1"; "B2"; "B3"]%string ["2019-04-01"%string] ["2019-09-30"%string] 7
         "modis" 30 31 (Some 50).
Proof.
  split; [reflexivity |].
  pose proof (@get_loc_tasks_single_window Z Z py_str_int (@Some Z) (fun z => z)
                Z.mul py_str_int shift_transform square_buffer (list string)
                disk_has disk_mkdir [] 30 31 2019 7 "MODIS/061/MOD09A1" "modis"
                ["B1"; "B2"; "B3"]%string None 2019 eq_refl) as H.
  cbv zeta in H. destruct H as (Hcall & _). exact Hcall.
Defined.

(* ================================================================== *)
(** * The further properties at concrete inputs *)
(* ================================================================== *)

Lemma start_multiple_tasks_minus_one :
  -1 < 0
  /\ start_multiple_tasks [11; 12; 13] (-1) []
     = (([11; 12], [13]), [TaskStart 11; Sleep Z 500; TaskStart 12; Sleep Z 500]).
Proof.
  split; [lia |].
  pose proof (@start_multiple_tasks_negative_n Z [11; 12; 13] (-1) [] ltac:(lia)) as H.
  cbv zeta in H. destruct H as (Hrun & _). rewrite Hrun. reflexivity.
Defined.

Lemma start_multiple_tasks_more_than_all :
  py_len [11; 12] <= 5
  /\ start_multiple_tasks [11; 12] 5 []
     = (([11; 12], []), [TaskStart 11; Sleep Z 500; TaskStart 12; Sleep Z 500]).
Proof.
  assert (Hlen : py_len [11; 12] <= 5) by (unfold py_len; simpl; lia).
  split; [exact Hlen |].
  destruct (@start_multiple_tasks_all_or_none Z [11; 12] 5 []) as (Hall & _).
  rewrite (Hall Hlen). reflexivity.
Defined.

Lemma start_multiple_tasks_one_then_two :
  0 <= 1 /\ 0 <= 2
  /\ start_multiple_tasks [11; 12; 13; 14] (1 + 2) []
     = (([11] ++ [12; 13], [14]),
        [TaskStart 11; Sleep Z 500; TaskStart 12; Sleep Z 500; TaskStart 13;
         Sleep Z 500]).
Proof.
  split; [lia |]. split; [lia |].
  pose proof (@start_multiple_tasks_twice Z [11; 12; 13; 14] 1 2 []
                ltac:(lia) ltac:(lia)) as H.
  cbv zeta in H. rewrite H. reflexivity.
Defined.

Lemma start_multiple_tasks_sleeps_one_second :
  0 <= 2
  /\ total_sleep (snd (start_multiple_tasks [11; 12; 13] 2 [])) = 1000.
Proof.
  split; [lia |].
  pose proof (@start_multiple_tasks_sleep_time Z [11; 12; 13] 2 [] ltac:(lia)) as H.
  cbv zeta in H. destruct H as (Hsleep & _). rewrite Hsleep. reflexivity.
Defined.

Lemma getQABits_field_of_1280 :
  let p := {| px_bands := [("StateQA"%string, inject_Z 1280)]; px_valid := true |} in
  0 <= 8 <= 13
  /\ px_bands p = ("StateQA"%string, inject_Z 1280) :: []
  /\ eval_image (fun _ : geometry Z => true) (fun _ => 0%Q) clamp_uint8 p
       (getQABits (ImgArg Z) 8 13 "internal_quality_flag")
     = Some {| px_bands := [("internal_quality_flag"%string, inject_Z 5)];
               px_valid := true |}.
Proof.
  intros p. split; [lia |]. split; [reflexivity |].
  pose proof (@getQABits_extracts_bit_field Z (fun _ => true) (fun _ => 0%Q)
                clamp_uint8 p "StateQA" 1280 [] 8 13 "internal_quality_flag"
                ltac:(lia) eq_refl) as H.
  cbv zeta in H. destruct H as (Hrun & _). rewrite Hrun. reflexivity.
Defined.

Lemma getQABits_single_bit_reads_nothing :
  let p := {| px_bands := [("StateQA"%string, inject_Z 1024)]; px_valid := true |} in
  10 <= 10
  /\ px_bands p = ("StateQA"%string, inject_Z 1024) :: []
  /\ Z.testbit 1024 10 = true
  /\ eval_image (fun _ : geometry Z => true) (fun _ => 0%Q) clamp_uint8 p
       (getQABits (ImgArg Z) 10 10 "cloud")
     = Some {| px_bands := [("cloud"%string, 0%Q)]; px_valid := true |}.
Proof.
  intros p. split; [lia |]. split; [reflexivity |]. split; [reflexivity |].
  destruct (@getQABits_empty_range Z (fun _ => true) (fun _ => 0%Q) clamp_uint8 p
              "StateQA" (inject_Z 1024) [] 10 10 "cloud" ltac:(lia) eq_refl)
    as (_ & Hrun).
  rewrite Hrun. reflexivity.
Defined.

Lemma maskCloud_twice_on_cloudy_pixel :
  let p := {| px_bands := [("StateQA"%string, inject_Z 1024)]; px_valid := true |} in
  lookup_band "StateQA" (px_bands p) = Some (inject_Z 1024)
  /\ eval_image (fun _ : geometry Z => true) (fun _ => 0%Q) clamp_uint8 p
       (maskCloud (maskCloud (ImgArg Z)))
     = Some {| px_bands := px_bands p; px_valid := false |}.
Proof.
  intros p. split; [reflexivity |].
  rewrite (@maskCloud_idempotent Z (fun _ => true) (fun _ => 0%Q) clamp_uint8 p 1024
             eq_refl).
  reflexivity.
Defined.

Lemma cloud_and_polygon_masks_two_images :
  let c := ImageCollection Z "MODIS/061/MOD09A1" in
  let polygon := GeomPolygon square_ring in
  let run := eval_collection (fun _ => true) (fun _ => 0%Q) clamp_uint8
               (fun _ => two_images) in
  run c = Some two_images
  /\ (forall p, In p two_images -> exists qa : Z,
         lookup_band "StateQA" (px_bands p) = Some (inject_Z qa))
  /\ option_map (map px_valid)
       (run (CollMap (polygon_mask_body polygon) (CollMap (maskCloud (ImgArg Z)) c)))
     = Some [true; false].
Proof.
  intros c polygon run.
  assert (Hqa : forall p, In p two_images -> exists qa : Z,
                  lookup_band "StateQA" (px_bands p) = Some (inject_Z qa)).
  { intros p [<- | [<- | []]]; eexists; reflexivity. }
  split; [reflexivity |]. split; [exact Hqa |].
  destruct (@cloud_and_polygon_masks Z (fun _ => true) (fun _ => 0%Q) clamp_uint8
              (fun _ => two_images) c polygon two_images eq_refl Hqa) as (Hrun & _).
  unfold run. rewrite Hrun. reflexivity.
Defined.

Lemma norm_band_scaled_between_10_and_30 :
  let minValue :=
    NumReduceRegion (CollMin (ImageCollection Z "S")) ReducerMin
      (GeomPolygon square_ring) 100000000000 500 "B1" in
  let maxValue :=
    NumReduceRegion (CollMax (ImageCollection Z "S")) ReducerMax
      (GeomPolygon square_ring) 100000000000 500 "B1" in
  let reduce := fun n : number Z =>
    match n with
    | NumReduceRegion _ ReducerMin _ _ _ _ => 10%Q
    | NumReduceRegion _ ReducerMax _ _ _ _ => 30%Q
    | NumSubtract _ _ => 0%Q
    end in
  (eval_number reduce minValue < eval_number reduce maxValue)%Q
  /\ (0 <= (20 - 10) / (30 - 10) * 256 <= 256)%Q
  /\ (256 < (40 - 10) / (30 - 10) * 256)%Q.
Proof.
  intros minValue maxValue reduce.
  assert (Hlt : (eval_number reduce minValue < eval_number reduce maxValue)%Q)
    by reflexivity.
  split; [exact Hlt |].
  pose proof (@norm_band_scaled_range Z (fun _ => true) reduce clamp_uint8
                {| px_bands := []; px_valid := true |} "B1" minValue maxValue) as H.
  cbv zeta in H. destruct (H Hlt) as (_ & _ & _ & Hin & Hout & _).
  split; [apply (Hin 20%Q); split; discriminate | apply (Hout 40%Q); reflexivity].
Defined.

Lemma create_export_tasks_settings_of_first_task :
  match create_export_tasks_for_all_bands py_str_int (disk_has [])
          (ImageCollection Z "S") ["B1"; "B2"; "B3"]%string "modis"
          (GeomPolygon square_ring) 7 30 31 "2019-04-01" "2019-09-30" with
  | Ok (t :: _) =>
      task_scale t = 500 /\ task_framesPerSecond t = 12
      /\ task_folder t = "modis"%string
  | _ => False
  end.
Proof.
  destruct (create_export_tasks_for_all_bands py_str_int (disk_has [])
              (ImageCollection Z "S") ["B1"; "B2"; "B3"]%string "modis"
              (GeomPolygon square_ring) 7 30 31 "2019-04-01" "2019-09-30")
    as [[| t ts] | e] eqn:Hrun; try (vm_compute in Hrun; discriminate Hrun).
  destruct (@create_export_tasks_task_settings Z Z py_str_int (disk_has [])
              (ImageCollection Z "S") ["B1"; "B2"; "B3"]%string "modis"
              (GeomPolygon square_ring) 7 30 31 "2019-04-01" "2019-09-30"
              (t :: ts) Hrun t (or_introl eq_refl))
    as (Hscale & Hfps & _ & Hfolder & _).
  split; [exact Hscale |]. split; [exact Hfps | exact Hfolder].
Defined.

Lemma create_export_tasks_count_of_four_bands :
  (3 <= List.length ["B1"; "B2"; "B3"; "B4"]%string)%nat
  /\ (forall path, (fun _ : string => false) path = false)
  /\ exists tasks,
       create_export_tasks_for_all_bands py_str_int (fun _ => false)
         (ImageCollection Z "S") ["B1"; "B2"; "B3"; "B4"]%string "modis"
         (GeomPolygon square_ring) 7 30 31 "2019-04-01" "2019-09-30" = Ok tasks
       /\ List.length tasks = 2%nat.
Proof.
  split; [simpl; lia |]. split; [reflexivity |].
  destruct (@create_export_tasks_count Z Z py_str_int (fun _ => false)
              (ImageCollection Z "S") ["B1"; "B2"; "B3"; "B4"]%string "modis"
              (GeomPolygon square_ring) 7 30 31 "2019-04-01" "2019-09-30"
              ltac:(simpl; lia))
    as (tasks & Hrun & _ & Hnone & _).
  exists tasks. split; [exact Hrun |]. rewrite Hnone by reflexivity. reflexivity.
Defined.

Lemma create_export_tasks_rerun_after_export :
  let file :=
    "/content/drive/MyDrive/modis/bands:B1,B2,B3;loc:7;s:2019-04-01;e:2019-09-30.mp4"%string in
  let run disk :=
    create_export_tasks_for_all_bands py_str_int (disk_has disk)
      (ImageCollection Z "S") ["B1"; "B2"; "B3"]%string "modis"
      (GeomPolygon square_ring) 7 30 31 "2019-04-01" "2019-09-30" in
  (exists t, run [] = Ok [t])
  /\ (forall path, disk_has [] path = true -> disk_has [file] path = true)
  /\ run [file] = Ok [].
Proof.
  intros file run.
  assert (Hmore : forall path, disk_has [] path = true -> disk_has [file] path = true)
    by (intros path H; discriminate H).
  split; [eexists; reflexivity |]. split; [exact Hmore |].
  destruct (run []) as [tasks | e] eqn:Hrun; [| vm_compute in Hrun; discriminate Hrun].
  destruct (@create_export_tasks_rerun Z Z py_str_int (disk_has []) (disk_has [file])
              (ImageCollection Z "S") ["B1"; "B2"; "B3"]%string "modis"
              (GeomPolygon square_ring) 7 30 31 "2019-04-01" "2019-09-30"
              tasks Hrun Hmore)
    as (tasks' & Hrun' & _ & Hdone).
  unfold run. rewrite Hrun'. f_equal. apply Hdone.
  vm_compute in Hrun. injection Hrun as <-.
  intros t [<- | []]. reflexivity.
Defined.

Lemma video_name_with_periods_and_apostrophes :
  List.length ["B.1"; "B'2"; "B3"]%string = 3%nat
  /\ video_name py_str_int ["B.1"; "B'2"; "B3"]%string 7 "2019-04-01" "2019-09-30"
     = Ok "bands:B1,B2,B3;loc:7;s:2019-04-01;e:2019-09-30"%string
  /\ video_name py_str_int ["B1"; "B2"; "B3"]%string 7 "2019-04-01" "2019-09-30"
     = video_name py_str_int ["B.1"; "B'2"; "B3"]%string 7 "2019-04-01" "2019-09-30".
Proof.
  split; [reflexivity |].
  destruct (@video_name_cleaned_parts Z py_str_int 7 "2019-04-01" "2019-09-30"
              ["B.1"; "B'2"; "B3"]%string eq_refl) as (Hname & Hsame).
  split; [rewrite Hname; reflexivity | apply Hsame; reflexivity].
Defined.

Lemma band_chunks_overlap_of_seven :
  (3 <= List.length [1; 2; 3; 4; 5; 6; 7])%nat
  /\ band_chunks [1; 2; 3; 4; 5; 6; 7] = Ok ([[1; 2; 3]; [4; 5; 6]] ++ [[5; 6; 7]])
  /\ List.concat [[1; 2; 3]; [4; 5; 6]] ++ skipn 2 [5; 6; 7] = [1; 2; 3; 4; 5; 6; 7].
Proof.
  split; [simpl; lia |].
  destruct (band_chunks_overlap [1; 2; 3; 4; 5; 6; 7] ltac:(simpl; lia))
    as (leading & last & Hrun & _ & Hcat).
  split; [reflexivity |].
  vm_compute in Hrun. injection Hrun as Hchunks.
  assert (Hl : leading = [[1; 2; 3]; [4; 5; 6]] /\ last = [5; 6; 7]).
  { destruct leading as [| a [| b [| c r]]]; cbn [app] in Hchunks;
      try discriminate Hchunks.
    - injection Hchunks as <- <- <-. split; reflexivity.
    - destruct r; discriminate Hchunks. }
  destruct Hl as (-> & ->). exact Hcat.
Defined.

Lemma band_chunks_of_two :
  (1 <= List.length [1; 2] <= 3)%nat /\ band_chunks [1; 2] = Ok [[1; 2]].
Proof.
  assert (H : (1 <= List.length [1; 2] <= 3)%nat) by (simpl; lia).
  split; [exact H | apply (band_chunks_short_list [1; 2] H)].
Defined.

Lemma video_path_folder_with_slash :
  starts_with_sep "modis/" = false
  /\ os_path_join "/content/drive/MyDrive/"
       ["modis/"%string;
        (chunk_video_name py_str_int 7 "2019-04-01" "2019-09-30"
           ["B1"; "B2"; "B3"]%string ++ ".mp4")%string]
     = "/content/drive/MyDrive/modis/bands:B1,B2,B3;loc:7;s:2019-04-01;e:2019-09-30.mp4"%string.
Proof.
  split; [reflexivity |].
  pose proof (@video_path_in_created_folder Z py_str_int "modis/" 7 "2019-04-01"
                "2019-09-30" ["B1"; "B2"; "B3"]%string eq_refl) as H.
  cbv zeta in H. rewrite H. reflexivity.
Defined.

Lemma get_loc_satellite_tasks_without_dates :
  let folder := "/content/drive/MyDrive/modis"%string in
  create_circular_bb_polygon (fun z => z) Z.mul py_str_int shift_transform
    square_buffer (30, 31) (Some 100) = Ok (GeomPolygon square_ring)
  /\ (if negb (disk_has [] folder) then disk_mkdir [] folder else Ok []) = Ok [folder]
  /\ get_loc_satellite_tasks py_str_int (fun z => z) Z.mul py_str_int
       shift_transform square_buffer disk_has disk_mkdir [] "MODIS/061/MOD09A1"
       ["B1"%string] [] ["2019-09-30"%string] 7 "modis" 30 31 None
     = Ok ([folder], []).
Proof.
  intros folder. split; [reflexivity |]. split; [reflexivity |].
  apply (@get_loc_satellite_tasks_no_period Z Z py_str_int (fun z => z) Z.mul
           py_str_int shift_transform square_buffer (list string) disk_has
           disk_mkdir [] [folder] "MODIS/061/MOD09A1" ["B1"%string]
           ["2019-09-30"%string] 7 "modis" 30 31 None (GeomPolygon square_ring)
           eq_refl eq_refl).
Defined.

Lemma get_loc_satellite_tasks_one_end_date_short :
  let folder := "/content/drive/MyDrive/modis"%string in
  let bands := ["B1"; "B2"; "B3"]%string in
  let start_dates := ["2019-04-01"; "2020-04-01"]%string in
  let end_dates := ["2019-09-30"%string] in
  create_circular_bb_polygon (fun z => z) Z.mul py_str_int shift_transform
    square_buffer (30, 31) (Some 100) = Ok (GeomPolygon square_ring)
  /\ (if negb (disk_has [] folder) then disk_mkdir [] folder else Ok []) = Ok [folder]
  /\ (3 <= List.length bands)%nat
  /\ (List.length end_dates < List.length start_dates)%nat
  /\ get_loc_satellite_tasks py_str_int (fun z => z) Z.mul py_str_int
       shift_transform square_buffer disk_has disk_mkdir [] "MODIS/061/MOD09A1"
       bands start_dates end_dates 7 "modis" 30 31 None
     = Raise (IndexError 1 1).
Proof.
  intros folder bands start_dates end_dates.
  split; [reflexivity |]. split; [reflexivity |].
  split; [simpl; lia |]. split; [simpl; lia |].
  apply (@get_loc_satellite_tasks_missing_end_date Z Z py_str_int (fun z => z) Z.mul
           py_str_int shift_transform square_buffer (list string) disk_has
           disk_mkdir [] [folder] "MODIS/061/MOD09A1" bands start_dates end_dates
           7 "modis" 30 31 None (GeomPolygon square_ring)
           eq_refl eq_refl ltac:(simpl; lia) ltac:(simpl; lia)).
Defined.

Lemma get_loc_satellite_tasks_spare_end_date :
  let call end_dates :=
    get_loc_satellite_tasks py_str_int (fun z => z) Z.mul py_str_int
      shift_transform square_buffer disk_has disk_mkdir [] "MODIS/061/MOD09A1"
      ["B1"; "B2"; "B3"]%string ["2019-04-01"%string] end_dates 7 "modis"
      30 31 None in
  (List.length ["2019-04-01"%string] <= List.length ["2019-09-30"%string])%nat
  /\ call (["2019-09-30"%string] ++ ["2020-09-30"%string]) = call ["2019-09-30"%string].
Proof.
  intros call. split; [simpl; lia |].
  apply (@get_loc_satellite_tasks_extra_end_dates Z Z py_str_int (fun z => z) Z.mul
           py_str_int shift_transform square_buffer (list string) disk_has
           disk_mkdir [] "MODIS/061/MOD09A1" ["B1"; "B2"; "B3"]%string
           ["2019-04-01"%string] ["2019-09-30"%string] ["2020-09-30"%string]
           7 "modis" 30 31 None ltac:(simpl; lia)).
Defined.

Lemma create_circular_bb_polygon_area_zero :
  square_buffer
    (shift_transform "+proj=longlat +datum=WGS84 +no_defs"
       ("+proj=aeqd +R=6371000 +units=m +lat_0=" ++ py_str_int 30
          ++ " +lon_0=" ++ py_str_int 31)
       (31, 30))
    (0 * 1000) = []
  /\ create_circular_bb_polygon (fun z => z) Z.mul py_str_int shift_transform
       square_buffer (30, 31) (Some 0) = Raise (IndexError 0 0).
Proof.
  split; [reflexivity |].
  destruct (@create_circular_bb_polygon_empty_buffer Z Z py_str_int (fun z => z)
              Z.mul py_str_int shift_transform square_buffer (list string)
              disk_has disk_mkdir [] "S" [] [] [] 7 "modis" 30 31 0 eq_refl)
    as (Hpoly & _).
  exact Hpoly.
Defined.

Lemma get_loc_satellite_tasks_folder_already_there :
  let folder := "/content/drive/MyDrive/modis"%string in
  let result :=
    get_loc_satellite_tasks py_str_int (fun z => z) Z.mul py_str_int
      shift_transform square_buffer disk_has disk_mkdir [folder] "S"
      ["B1"; "B2"; "B3"]%string ["2019-04-01"%string] ["2019-09-30"%string]
      7 "modis" 30 31 None in
  create_circular_bb_polygon (fun z => z) Z.mul py_str_int shift_transform
    square_buffer (30, 31) (Some 100) = Ok (GeomPolygon square_ring)
  /\ disk_has [folder] folder = true
  /\ match result with
     | Ok (disk, _) => disk = [folder]
     | Raise _ => False
     end.
Proof.
  intros folder result. split; [reflexivity |]. split; [reflexivity |].
  pose proof (@get_loc_satellite_tasks_folder Z Z py_str_int (fun z => z) Z.mul
                py_str_int shift_transform square_buffer (list string) disk_has
                disk_mkdir [folder] "S" ["B1"; "B2"; "B3"]%string
                ["2019-04-01"%string] ["2019-09-30"%string] 7 "modis" 30 31 None
                (GeomPolygon square_ring) eq_refl) as H.
  cbv zeta in H. destruct H as (Hthere & _).
  fold folder in Hthere. fold result in Hthere.
  destruct result as [[disk tasks] | e] eqn:Hres;
    [| vm_compute in Hres; discriminate Hres].
  apply (Hthere eq_refl disk tasks eq_refl).
Defined.


Lemma norm_band_loop_on_two_images :
  let c := ImageCollection Z "S" in
  let run := eval_collection (fun _ => true) (fun _ => 5%Q) clamp_uint8
               (fun _ => two_images) in
  run c = Some two_images
  /\ (forall p b, In p two_images -> In b ["B1"; "B2"]%string ->
        lookup_band b (px_bands p) <> None)
  /\ exists l',
       run (fold_left (fun c band => norm_band c band (GeomPolygon square_ring))
              ["B1"; "B2"]%string c) = Some l'
       /\ List.length l' = 2%nat.
Proof.
  intros c run.
  assert (Hband : forall p b, In p two_images -> In b ["B1"; "B2"]%string ->
                    lookup_band b (px_bands p) <> None).
  { intros p b [<- | [<- | []]] [<- | [<- | []]]; discriminate. }
  split; [reflexivity |]. split; [exact Hband |].
  destruct (@norm_band_loop_invariants Z (fun _ => true) (fun _ => 5%Q) clamp_uint8
              (fun _ => two_images) (GeomPolygon square_ring) ["B1"; "B2"]%string
              c two_images eq_refl Hband)
    as (l' & Hrun & Hlen & _).
  exists l'. split; [exact Hrun | exact Hlen].
Defined.

Lemma prepare_collection_modis_two_images :
  let bands := ["B1"; "B2"]%string in
  let run := eval_collection (fun _ => true) (fun _ => 5%Q) clamp_uint8
               (fun _ => two_images) in
  (forall p b, In p two_images -> In b bands -> lookup_band b (px_bands p) <> None)
  /\ (forall p, In p two_images -> exists qa : Z,
         lookup_band "StateQA" (px_bands p) = Some (inject_Z qa))
  /\ option_map (map px_valid)
       (run (prepare_collection "MODIS/061/MOD09A1" bands (GeomPolygon square_ring)
               "2019-04-01" "2019-09-30"))
     = Some [true; false].
Proof.
  intros bands run.
  assert (Hband : forall p b, In p two_images -> In b bands ->
                    lookup_band b (px_bands p) <> None).
  { intros p b [<- | [<- | []]] [<- | [<- | []]]; discriminate. }
  assert (Hqa : forall p, In p two_images -> exists qa : Z,
                  lookup_band "StateQA" (px_bands p) = Some (inject_Z qa)).
  { intros p [<- | [<- | []]]; eexists; reflexivity. }
  split; [exact Hband |]. split; [exact Hqa |].
  pose proof (@prepare_collection_at_pixel Z (fun _ => true) (fun _ => 5%Q)
                clamp_uint8 (fun _ => two_images) "MODIS/061/MOD09A1" bands
                (GeomPolygon square_ring) "2019-04-01" "2019-09-30") as H.
  cbv zeta in H. destruct (H Hband (fun _ => Hqa)) as (l' & Hrun & _ & Hrel).
  unfold run. rewrite Hrun. cbn [option_map]. f_equal.
  inversion Hrel as [| p1 q1 r1 s1 (Hv1 & _) Hrest]; subst.
  inversion Hrest as [| p2 q2 r2 s2 (Hv2 & _) Hnil]; subst.
  inversion Hnil; subst. cbn [map]. rewrite Hv1, Hv2. reflexivity.
Defined.

Lemma get_loc_tasks_names_of_2019 :
  let folder := "/content/drive/MyDrive/modis"%string in
  (@Some Z) 2019 = Some 2019
  /\ create_circular_bb_polygon (fun z => z) Z.mul py_str_int shift_transform
       square_buffer (30, 31) (Some 50) = Ok (GeomPolygon square_ring_50)
  /\ (if negb (disk_has [] folder) then disk_mkdir [] folder else Ok []) = Ok [folder]
  /\ (3 <= List.length ["B.1"; "B2"; "B3"]%string)%nat
  /\ exists t,
       get_loc_tasks py_str_int (@Some Z) (fun z => z) Z.mul py_str_int
         shift_transform square_buffer disk_has disk_mkdir [] 30 31 2019 7
         "MODIS/061/MOD09A1" "modis" ["B.1"; "B2"; "B3"]%string None
       = Ok ([folder], [t])
       /\ task_description t = "bands:B1,B2,B3;loc:7;s:2019-04-01;e:2019-09-30"%string.
Proof.
  intros folder. split; [reflexivity |]. split; [reflexivity |].
  split; [reflexivity |]. split; [simpl; lia |].
  destruct (@get_loc_tasks_names_carry_year Z Z py_str_int (@Some Z) (fun z => z)
              Z.mul py_str_int shift_transform square_buffer (list string)
              disk_has disk_mkdir [] [folder] 30 31 2019 7 "MODIS/061/MOD09A1"
              "modis" ["B.1"; "B2"; "B3"]%string None 2019
              (GeomPolygon square_ring_50) eq_refl eq_refl eq_refl
              ltac:(simpl; lia))
    as (tasks & Hrun & _ & _).
  rewrite Hrun.
  assert (Hsame : Ok ([folder], tasks)
                  = get_loc_tasks py_str_int (@Some Z) (fun z => z) Z.mul py_str_int
                      shift_transform square_buffer disk_has disk_mkdir [] 30 31
                      2019 7 "MODIS/061/MOD09A1" "modis"
                      ["B.1"; "B2"; "B3"]%string None)
    by (symmetry; exact Hrun).
  vm_compute in Hsame. injection Hsame as ->.
  eexists. split; reflexivity.
Defined.
